(** * Deadline Tracker: the time arithmetic and the tracker list

    A shallow embedding of the computational core of the Deadline Tracker
    React application: [src/App.jsx] (the multi-tracker application) and its
    single-tracker predecessor.  View code (markup, styling, animation) is
    not modelled.

    Conventions.
    - Instants and millisecond counts are JavaScript Numbers holding integers;
      they are modelled as [Z] (every value [Date.now()] or a date parser can
      return is an integer far below 2^53, where Number arithmetic is exact).
    - The only fractional Number the code computes is the percentage.  It is
      modelled by [jsnum]: an exact rational or one of the three non-finite
      values, so that a division by zero is visible as [NaN] or an infinity.
      Rounding of binary64 is not modelled.
    - Strings are sequences of UTF-16 code units. *)

From Stdlib Require Import ZArith QArith Qround List Bool String Ascii Lia.
Import ListNotations.
Local Open Scope Z_scope.

(** ** JavaScript Numbers and the [Math] functions the code uses *)

Module JS.

Inductive jsnum : Type :=
| Fin (q : Q)
| PosInf
| NegInf
| NaN.

Definition of_int (z : Z) : jsnum := Fin (inject_Z z).

(** [a / b] for two integer-valued Numbers. Never throws: a zero divisor
    gives [NaN] or an infinity. *)
Definition div (a b : Z) : jsnum :=
  if b =? 0 then
    (if a =? 0 then NaN else if 0 <? a then PosInf else NegInf)
  else Fin (inject_Z a / inject_Z b)%Q.

(** [x * y]. *)
Definition mul (x y : jsnum) : jsnum :=
  let sign_inf (pos : bool) (q : Q) :=
    match (q ?= 0)%Q with
    | Eq => NaN
    | Gt => if pos then PosInf else NegInf
    | Lt => if pos then NegInf else PosInf
    end in
  match x, y with
  | NaN, _ | _, NaN => NaN
  | Fin a, Fin b => Fin (a * b)%Q
  | PosInf, Fin b | Fin b, PosInf => sign_inf true b
  | NegInf, Fin b | Fin b, NegInf => sign_inf false b
  | PosInf, PosInf | NegInf, NegInf => PosInf
  | PosInf, NegInf | NegInf, PosInf => NegInf
  end.

(** [Math.min(x, y)] and [Math.max(x, y)]: [NaN] if either argument is. *)
Definition Math_min (x y : jsnum) : jsnum :=
  match x, y with
  | NaN, _ | _, NaN => NaN
  | NegInf, _ | _, NegInf => NegInf
  | PosInf, z | z, PosInf => z
  | Fin a, Fin b => if Qle_bool a b then Fin a else Fin b
  end.

Definition Math_max (x y : jsnum) : jsnum :=
  match x, y with
  | NaN, _ | _, NaN => NaN
  | PosInf, _ | _, PosInf => PosInf
  | NegInf, z | z, NegInf => z
  | Fin a, Fin b => if Qle_bool a b then Fin b else Fin a
  end.

(** [Math.floor] of a finite Number. *)
Definition Math_floor (q : Q) : Z := Qfloor q.

(** The remainder operator [%] on integers truncates towards zero. *)
Definition rem (a b : Z) : Z := Z.rem a b.

Definition is_finite (x : jsnum) : bool :=
  match x with Fin _ => true | _ => false end.

(** *** Strings: sequences of UTF-16 code units *)

Definition jsstring : Type := list N.

(** An ASCII literal as a JavaScript string. *)
Definition str (s : string) : jsstring :=
  List.map N_of_ascii (list_ascii_of_string s).

Fixpoint str_eqb (a b : jsstring) : bool :=
  match a, b with
  | [], [] => true
  | x :: a', y :: b' => N.eqb x y && str_eqb a' b'
  | _, _ => false
  end.

Definition is_empty (s : jsstring) : bool :=
  match s with [] => true | _ => false end.

(** White space and line terminators of ECMAScript, the code units
    [String.prototype.trim] strips. *)
Definition is_ws (c : N) : bool :=
  (((9 <=? c) && (c <=? 13)) || (c =? 32) || (c =? 160) || (c =? 5760)
   || ((8192 <=? c) && (c <=? 8202)) || (c =? 8232) || (c =? 8233)
   || (c =? 8239) || (c =? 8287) || (c =? 12288) || (c =? 65279))%N.

Fixpoint trimStart (s : jsstring) : jsstring :=
  match s with
  | c :: r => if is_ws c then trimStart r else s
  | [] => []
  end.

Definition trimEnd (s : jsstring) : jsstring := rev (trimStart (rev s)).

Definition trim (s : jsstring) : jsstring := trimEnd (trimStart s).

(** *** Values: what [JSON.parse] can return and what the state holds

    [JNum] is a finite Number; [JInf] is [Infinity] or [-Infinity], which
    [JSON.parse] returns for a numeral too large for a Number (such as
    [1e999]) and which [JSON.stringify] writes as [null]. *)

#[local] Set Warnings "-register-all".

Inductive jsval : Type :=
| JNull
| JBool (b : bool)
| JNum (q : Q)
| JStr (s : jsstring)
| JArr (items : list jsval)
| JObj (fields : list (jsstring * jsval))
| JInf (negative : bool).

Definition JInt (z : Z) : jsval := JNum (inject_Z z).

Inductive Exn : Type := SyntaxError | TypeError.

Inductive outcome (A : Type) : Type :=
| Ok (a : A)
| Throw (e : Exn).
Arguments Ok {A} a.
Arguments Throw {A} e.

Fixpoint assoc (k : jsstring) (fields : list (jsstring * jsval)) : option jsval :=
  match fields with
  | [] => None
  | (k', v) :: rest => if str_eqb k k' then Some v else assoc k rest
  end.

(** [v.k] for a property name [k] that is neither [length] nor an index:
    a [TypeError] on [null], the own property of an object ([None] is
    [undefined]), and [undefined] on every other value. An object that
    [JSON.parse] built has no two fields of one name. *)
Definition get_prop (v : jsval) (k : jsstring) : outcome (option jsval) :=
  match v with
  | JNull => Throw TypeError
  | JObj fields => Ok (assoc k fields)
  | _ => Ok None
  end.

Definition isArray (v : option jsval) : bool :=
  match v with Some (JArr _) => true | _ => false end.

(** Truthiness, as [if (v)] tests it. *)
Definition truthy (v : option jsval) : bool :=
  match v with
  | None | Some JNull => false
  | Some (JBool b) => b
  | Some (JNum q) => negb (Qeq_bool q 0)
  | Some (JStr s) => negb (is_empty s)
  | Some (JArr _) | Some (JObj _) | Some (JInf _) => true
  end.

(** [v !== n] for a Number [n]: only an equal Number is strictly equal. *)
Definition strict_neq_num (v : option jsval) (n : Z) : bool :=
  match v with
  | Some (JNum q) => negb (Qeq_bool q (inject_Z n))
  | _ => true
  end.

(** [v === s] for a string literal [s]. *)
Definition strict_eq_str (v : jsval) (s : jsstring) : bool :=
  match v with
  | JStr s' => str_eqb s' s
  | _ => false
  end.

(** *** The browser: clock, random source, alerts, one storage entry *)

Record World : Type := mkWorld {
  clock : nat -> Z;          (* the successive readings of [Date.now()] by the handlers *)
  clock_reads : nat;
  random : nat -> Q;         (* the successive draws of [Math.random()] *)
  random_draws : nat;
  alerts : list string;      (* messages shown by [alert], oldest first *)
  storage : option jsstring  (* the entry under the application's key *)
}.

(** A handler runs on the component state [S] and the browser; it ends
    normally or by throwing, and keeps its effects either way. *)
Record Machine (S : Type) : Type := mkMachine {
  react : S;
  world : World
}.
Arguments mkMachine {S} react world.
Arguments react {S} m.
Arguments world {S} m.

Definition M (S A : Type) : Type := Machine S -> outcome A * Machine S.

Definition ret {S A} (a : A) : M S A := fun m => (Ok a, m).

Definition bind {S A B} (c : M S A) (k : A -> M S B) : M S B :=
  fun m =>
    match c m with
    | (Ok a, m') => k a m'
    | (Throw e, m') => (Throw e, m')
    end.

Definition throw {S A} (e : Exn) : M S A := fun m => (Throw e, m).

(** [try { c } catch {}]. *)
Definition try_catch {S} (c : M S unit) : M S unit :=
  fun m =>
    match c m with
    | (Ok _, m') => (Ok tt, m')
    | (Throw _, m') => (Ok tt, m')
    end.

Definition lift {S A} (o : outcome A) : M S A := fun m => (o, m).

(** The values the running closure sees. *)
Definition render {S} : M S S := fun m => (Ok (react m), m).

(** A state setter called with an updater function. *)
Definition set_state {S} (f : S -> S) : M S unit :=
  fun m => (Ok tt, mkMachine (f (react m)) (world m)).

Definition Date_now {S} : M S Z :=
  fun m =>
    let w := world m in
    (Ok (clock w (clock_reads w)),
     mkMachine (react m)
       (mkWorld (clock w) (Datatypes.S (clock_reads w)) (random w) (random_draws w)
                (alerts w) (storage w))).

Definition Math_random {S} : M S Q :=
  fun m =>
    let w := world m in
    (Ok (random w (random_draws w)),
     mkMachine (react m)
       (mkWorld (clock w) (clock_reads w) (random w) (Datatypes.S (random_draws w))
                (alerts w) (storage w))).

Definition alert {S} (msg : string) : M S unit :=
  fun m =>
    let w := world m in
    (Ok tt,
     mkMachine (react m)
       (mkWorld (clock w) (clock_reads w) (random w) (random_draws w)
                (alerts w ++ [msg]) (storage w))).

Definition localStorage_getItem {S} : M S (option jsstring) :=
  fun m => (Ok (storage (world m)), m).

Definition localStorage_setItem {S} (v : jsstring) : M S unit :=
  fun m =>
    let w := world m in
    (Ok tt,
     mkMachine (react m)
       (mkWorld (clock w) (clock_reads w) (random w) (random_draws w)
                (alerts w) (Some v))).

End JS.

Declare Scope js_scope.
Delimit Scope js_scope with js.
Notation "x <- c ;; k" := (JS.bind c (fun x => k))
  (at level 61, c at next level, right associativity) : js_scope.
Notation "c ;;; k" := (JS.bind c (fun _ => k))
  (at level 61, right associativity) : js_scope.

(** ** Helpers shared by both source files *)

Module Helpers.
Import JS.

(** [const clamp = (n, min, max) => Math.max(min, Math.min(n, max))],
    at integer millisecond counts. *)
Definition clamp (n min max : Z) : Z := Z.max min (Z.min n max).

(** The same function at the (possibly fractional) percentage. *)
Definition clampN (n min max : jsnum) : jsnum := Math_max min (Math_min n max).

Record DHMS : Type := mkDHMS {
  days : Z;
  hours : Z;
  minutes : Z;
  seconds : Z
}.

(** [function msToDHMS(ms)]. *)
Definition totalSeconds (ms : Z) : Z := Z.max 0 (ms / 1000).

Definition msToDHMS (ms : Z) : DHMS :=
  let totalSeconds := totalSeconds ms in
  let days := totalSeconds / 86400 in
  let hours := (rem totalSeconds 86400) / 3600 in
  let minutes := (rem totalSeconds 3600) / 60 in
  let seconds := rem totalSeconds 60 in
  mkDHMS days hours minutes seconds.

(** [const QUOTES = [...]]: ten entries; only their number and order matter. *)
Definition QUOTES : list string :=
  [ "Small steps, every second.";
    "Your future self is watching.";
    "Momentum loves consistency.";
    "Done is better than perfect.";
    "Focus on the next minute.";
    "Tiny progress beats no progress.";
    "Show up for your goal.";
    "Make time your ally.";
    "Every tick is a chance.";
    "You’ve got this—keep going." ]%string.

(** [QUOTES[i]]: [None] stands for [undefined] (index out of range). *)
Definition quote_at (i : Z) : option string :=
  if i <? 0 then None else nth_error QUOTES (Z.to_nat i).

Record Progress : Type := mkProgress {
  totalMs : Z;
  elapsedMs : Z;
  remainingMs : Z;
  percent : jsnum
}.

End Helpers.

(** ** The progress figures as the specification words them *)

Module SpecWords.

Definition clampZ (x lo hi : Z) : Z :=
  if x <? lo then lo else if hi <? x then hi else x.

Definition clampQ (x lo hi : Q) : Q :=
  if Qle_bool lo x then (if Qle_bool x hi then x else hi) else lo.

Record Figures : Type := mkFigures {
  f_totalMs : Z;
  f_elapsedMs : Z;
  f_remainingMs : Z;
  f_percent : Q
}.

(** [deriveProgress(startTime, deadline, now)] of section 4.1. *)
Definition deriveProgress (startTime deadline now : Z) : Figures :=
  let totalMs := Z.max 1 (deadline - startTime) in
  let elapsedMs := clampZ (now - startTime) 0 totalMs in
  let remainingMs := Z.max 0 (deadline - now) in
  let percent := clampQ ((inject_Z elapsedMs / inject_Z totalMs) * 100)%Q 0 100 in
  mkFigures totalMs elapsedMs remainingMs percent.

End SpecWords.

(** ** [src/App.jsx]: the multi-tracker application *)

Module App.
Import JS Helpers.
Local Open Scope js_scope.

(** The five [useState] cells of [DeadlineTrackerApp]. *)
Record State : Type := mkState {
  goalInput : jsstring;
  deadlineInput : jsstring;      (* datetime-local string *)
  trackers : list jsval;
  now : Z;
  mode : jsval                   (* 'circular' | 'bar' *)
}.

Definition setGoalInput (v : jsstring) (s : State) : State :=
  mkState v (deadlineInput s) (trackers s) (now s) (mode s).
Definition setDeadlineInput (v : jsstring) (s : State) : State :=
  mkState (goalInput s) v (trackers s) (now s) (mode s).
Definition setTrackers (f : list jsval -> list jsval) (s : State) : State :=
  mkState (goalInput s) (deadlineInput s) (f (trackers s)) (now s) (mode s).
Definition setNow (v : Z) (s : State) : State :=
  mkState (goalInput s) (deadlineInput s) (trackers s) v (mode s).
Definition setMode (v : jsval) (s : State) : State :=
  mkState (goalInput s) (deadlineInput s) (trackers s) (now s) v.

(** The state of the first render; [t0] is the [Date.now()] of the mount. *)
Definition initial (t0 : Z) : State :=
  mkState (str "") (str "") [] t0 (JStr (str "circular")).

(** The object literal [newTracker]. *)
Record Tracker : Type := mkTracker {
  id : Z;
  goal : jsstring;
  startTime : Z;
  deadline : Z;
  quoteIndex : Z
}.

Definition tracker_obj (t : Tracker) : jsval :=
  JObj [ (str "id", JInt (id t));
         (str "goal", JStr (goal t));
         (str "startTime", JInt (startTime t));
         (str "deadline", JInt (deadline t));
         (str "quoteIndex", JInt (quoteIndex t)) ].

(** [function TrackerCard]: the four figures computed from the
    destructured [startTime] and [deadline] and the [now] prop. *)
Definition TrackerCard (startTime deadline now : Z) : Progress :=
  let totalMs := Z.max 1 (deadline - startTime) in
  let elapsedMs := clamp (now - startTime) 0 totalMs in
  let remainingMs := Z.max 0 (deadline - now) in
  let percent := clampN (mul (div elapsedMs totalMs) (of_int 100)) (of_int 0) (of_int 100) in
  mkProgress totalMs elapsedMs remainingMs percent.

(** The countdown blocks and the "Time's up" test of the card. *)
Definition TrackerCard_countdown (startTime deadline now : Z) : DHMS :=
  msToDHMS (remainingMs (TrackerCard startTime deadline now)).

Definition TrackerCard_expired (startTime deadline now : Z) : bool :=
  remainingMs (TrackerCard startTime deadline now) =? 0.

Inductive Visual : Type := CircularProgress | GradientBar.

(** [mode === "circular" ? <CircularProgress/> : <GradientBar/>]. *)
Definition TrackerCard_visual (mode : jsval) : Visual :=
  if strict_eq_str mode (str "circular") then CircularProgress else GradientBar.

Definition msg_goal : string := "Please enter a goal name.".
Definition msg_deadline : string := "Please set a valid deadline date & time.".
Definition msg_future : string := "Deadline must be in the future.".

(** [t.filter((tr) => tr.id !== id)]; reading [.id] of a [null] element
    throws. *)
Fixpoint filter_other_ids (id : Z) (t : list jsval) : outcome (list jsval) :=
  match t with
  | [] => Ok []
  | tr :: rest =>
      match get_prop tr (str "id") with
      | Throw e => Throw e
      | Ok v =>
          match filter_other_ids id rest with
          | Throw e => Throw e
          | Ok rest' => Ok (if strict_neq_num v id then tr :: rest' else rest')
          end
      end
  end.

Section Handlers.

(** Library functions the application calls, taken as they are:
    [dayjs(text).valueOf()] ([None] is [NaN]), [JSON.parse] ([None] is a
    [SyntaxError]) and [JSON.stringify]. *)
Variable dayjs_valueOf : jsstring -> option Z.
Variable JSON_parse : jsstring -> option jsval.
Variable JSON_stringify : jsval -> jsstring.

(** [function handleAddTracker(e)]. The test
    [!deadlineInput || Number.isNaN(d)] is written as the two cases of [d]. *)
Definition handleAddTracker : M State unit :=
  st <- render ;;
  let d := dayjs_valueOf (deadlineInput st) in
  if is_empty (trim (goalInput st)) then alert msg_goal
  else
    match d with
    | None => alert msg_deadline
    | Some d =>
        if is_empty (deadlineInput st) then alert msg_deadline
        else
          t <- Date_now ;;
          if d <=? t then alert msg_future
          else
            id <- Date_now ;;
            startTime <- Date_now ;;
            r <- Math_random ;;
            let newTracker :=
              tracker_obj
                (mkTracker id (trim (goalInput st)) startTime d
                   (Math_floor (r * inject_Z (Z.of_nat (List.length QUOTES)))%Q)) in
            set_state (setTrackers (fun t => t ++ [newTracker])) ;;;
            set_state (setGoalInput (str "")) ;;;
            set_state (setDeadlineInput (str ""))
    end.

(** [function handleReset()]. *)
Definition handleReset : M State unit :=
  set_state (setTrackers (fun _ => [])) ;;;
  set_state (setGoalInput (str "")) ;;;
  set_state (setDeadlineInput (str "")).

(** [function handleRemove(id)], for a Number [id]. *)
Definition handleRemove (id : Z) : M State unit :=
  st <- render ;;
  t' <- lift (filter_other_ids id (trackers st)) ;;
  set_state (setTrackers (fun _ => t')).

(** The two buttons of the mode toggle. *)
Definition click_circular : M State unit := set_state (setMode (JStr (str "circular"))).
Definition click_bar : M State unit := set_state (setMode (JStr (str "bar"))).

(** The typing of the two form fields ([onChange]). *)
Definition type_goal (v : jsstring) : M State unit := set_state (setGoalInput v).
Definition type_deadline (v : jsstring) : M State unit := set_state (setDeadlineInput v).

(** The ticker: [setNow(Date.now())] once a second. *)
Definition tick : M State unit :=
  t <- Date_now ;; set_state (setNow t).

(** The load effect, run once after the first render. *)
Definition load_effect : M State unit :=
  raw <- localStorage_getItem ;;
  match raw with
  | None => ret tt
  | Some raw =>
      if is_empty raw then ret tt
      else
        try_catch
          (s <- match JSON_parse raw with
                | Some v => ret v
                | None => throw SyntaxError
                end ;;
           ts <- lift (get_prop s (str "trackers")) ;;
           match ts with
           | Some (JArr items) => set_state (setTrackers (fun _ => items))
           | _ => ret tt
           end ;;;
           md <- lift (get_prop s (str "mode")) ;;
           match md with
           | Some v => if truthy md then set_state (setMode v) else ret tt
           | None => ret tt
           end)
  end.

(** The object [{ trackers, mode }] the persist effect writes. *)
Definition snapshot (s : State) : jsval :=
  JObj [ (str "trackers", JArr (trackers s)); (str "mode", mode s) ].

Definition persist_effect : M State unit :=
  st <- render ;;
  localStorage_setItem (JSON_stringify (snapshot st)).

End Handlers.

End App.

(** ** The single-tracker application *)

Module Single.
Import JS Helpers.
Local Open Scope js_scope.

(** Its [useState] cells; [startTime] and [deadline] are [null] ([None])
    until a goal is started. *)
Record State : Type := mkState {
  goal : jsstring;
  deadlineInput : jsstring;
  startTime : option Z;
  deadline : option Z;
  now : Z;
  mode : jsval;
  quoteIndex : Z
}.

Definition setStartTime (v : option Z) (s : State) : State :=
  mkState (goal s) (deadlineInput s) v (deadline s) (now s) (mode s) (quoteIndex s).
Definition setDeadline (v : option Z) (s : State) : State :=
  mkState (goal s) (deadlineInput s) (startTime s) v (now s) (mode s) (quoteIndex s).
Definition setDeadlineInput (v : jsstring) (s : State) : State :=
  mkState (goal s) v (startTime s) (deadline s) (now s) (mode s) (quoteIndex s).
Definition setQuoteIndex (v : Z) (s : State) : State :=
  mkState (goal s) (deadlineInput s) (startTime s) (deadline s) (now s) (mode s) v.

(** [const tracking = startTime !== null && deadline !== null]. *)
Definition tracking (startTime deadline : option Z) : bool :=
  match startTime, deadline with
  | Some _, Some _ => true
  | _, _ => false
  end.

(** The [useMemo] of the derived times. *)
Definition derived (startTime deadline : option Z) (now : Z) : Progress :=
  match startTime, deadline with
  | Some startTime, Some deadline =>
      let t := Z.max 1 (deadline - startTime) in
      let e := clamp (now - startTime) 0 t in
      let r := Z.max 0 (deadline - now) in
      let p := clampN (mul (div e t) (of_int 100)) (of_int 0) (of_int 100) in
      mkProgress t e r p
  | _, _ => mkProgress 0 0 0 (of_int 0)
  end.

Section Handlers.

Variable dayjs_valueOf : jsstring -> option Z.

(** [function handleStart(e)]. *)
Definition handleStart : M State unit :=
  st <- render ;;
  let d := dayjs_valueOf (deadlineInput st) in
  if is_empty (trim (goal st)) then alert App.msg_goal
  else
    match d with
    | None => alert App.msg_deadline
    | Some d =>
        if is_empty (deadlineInput st) then alert App.msg_deadline
        else
          t <- Date_now ;;
          if d <=? t then alert App.msg_future
          else
            startTime <- Date_now ;;
            set_state (setStartTime (Some startTime)) ;;;
            set_state (setDeadline (Some d)) ;;;
            r <- Math_random ;;
            set_state (setQuoteIndex (Math_floor (r * inject_Z (Z.of_nat (List.length QUOTES)))%Q))
    end.

(** [function handleReset()]. *)
Definition handleReset : M State unit :=
  set_state (setStartTime None) ;;;
  set_state (setDeadline None) ;;;
  set_state (setDeadlineInput (str "")).

End Handlers.

End Single.

(** ** The store of the specification, read on the code

    The specification names operations ([create], [remove], [setMode],
    [deserialize]) and rejections; the code has handlers and alerts. The
    definitions below say which is which. *)

Module Store.
Import JS Helpers.
Local Open Scope js_scope.

Inductive Rejection : Type := EmptyGoal | InvalidDeadline | PastDeadline.

(** The alert by which the code reports each rejection. *)
Definition message (r : Rejection) : string :=
  match r with
  | EmptyGoal => App.msg_goal
  | InvalidDeadline => App.msg_deadline
  | PastDeadline => App.msg_future
  end.

(** The deadline text read as an instant: an empty text and a text the date
    library does not understand are no instant. *)
Definition parse_deadline (dayjs_valueOf : jsstring -> option Z)
    (deadlineText : jsstring) : option Z :=
  if is_empty deadlineText then None else dayjs_valueOf deadlineText.

(** The three validations of [create], in the order of section 4.2; [None]
    when the submission passes all of them. *)
Definition validate (dayjs_valueOf : jsstring -> option Z)
    (goalText deadlineText : jsstring) (now : Z) : option Rejection :=
  if is_empty (trim goalText) then Some EmptyGoal
  else
    match parse_deadline dayjs_valueOf deadlineText with
    | None => Some InvalidDeadline
    | Some d => if d <=? now then Some PastDeadline else None
    end.

(** [create(goalInput, deadlineInput)]: the user fills in the two fields and
    submits the form. *)
Definition create (dayjs_valueOf : jsstring -> option Z)
    (goalText deadlineText : jsstring) : M App.State unit :=
  App.type_goal goalText ;;;
  App.type_deadline deadlineText ;;;
  App.handleAddTracker dayjs_valueOf.

(** The same for the single-tracker application. *)
Definition setGoal (v : jsstring) (s : Single.State) : Single.State :=
  Single.mkState v (Single.deadlineInput s) (Single.startTime s) (Single.deadline s)
    (Single.now s) (Single.mode s) (Single.quoteIndex s).

(** The next reading of the clock. *)
Definition next_now (w : World) : Z := clock w (clock_reads w).

(** The reading after [k] more. *)
Definition later_now (k : nat) (w : World) : Z := clock w (k + clock_reads w)%nat.

(** The next draw of the random source. *)
Definition next_random (w : World) : Q := random w (random_draws w).

(** The browser after an alert, and after one reading of the clock. *)
Definition alerted (msg : string) (w : World) : World :=
  mkWorld (clock w) (clock_reads w) (random w) (random_draws w)
    (alerts w ++ [msg]) (storage w).

Definition clock_read (w : World) : World :=
  mkWorld (clock w) (Datatypes.S (clock_reads w)) (random w) (random_draws w)
    (alerts w) (storage w).

(** The browser in which a rejection [r] ends: the clock has been read once
    if the deadline was compared with it. *)
Definition rejected (r : Rejection) (w : World) : World :=
  match r with
  | PastDeadline => alerted (message r) (clock_read w)
  | _ => alerted (message r) w
  end.

(** A snapshot of the shape [{ trackers: Tracker[], mode: DisplayMode }]
    of section 6. *)
Definition is_mode (v : jsval) : bool :=
  strict_eq_str v (str "circular") || strict_eq_str v (str "bar").

Definition is_tracker (v : jsval) : bool :=
  match v with
  | JObj f =>
      match assoc (str "id") f, assoc (str "goal") f, assoc (str "startTime") f,
            assoc (str "deadline") f, assoc (str "quoteIndex") f with
      | Some _, Some (JStr _), Some (JNum _), Some (JNum _), Some (JNum _) => true
      | _, _, _, _, _ => false
      end
  | _ => false
  end.

Definition valid_snapshot (v : jsval) : bool :=
  match v with
  | JObj f =>
      match assoc (str "trackers") f, assoc (str "mode") f with
      | Some (JArr items), Some m => forallb is_tracker items && is_mode m
      | _, _ => false
      end
  | _ => false
  end.

(** JSON text written with ['] for the double quote. *)
Definition json_text (s : string) : jsstring :=
  List.map (fun c => if (c =? 39)%N then 34%N else c) (str s).

(** The tracker an accepted submission builds, and the browser it leaves:
    three readings of the clock (the comparison, [id], [startTime]) and one
    draw. *)
Definition new_tracker (goalText : jsstring) (d : Z) (w : World) : App.Tracker :=
  App.mkTracker (later_now 1 w) (trim goalText) (later_now 2 w) d
    (Math_floor (next_random w * inject_Z (Z.of_nat (List.length QUOTES)))%Q).

Definition accepted (w : World) : World :=
  mkWorld (clock w) (3 + clock_reads w)%nat (random w) (Datatypes.S (random_draws w))
    (alerts w) (storage w).

(** The field [k] of a parsed value that is not [null]. *)
Definition field (v : jsval) (k : string) : option jsval :=
  match v with
  | JObj f => assoc (str k) f
  | _ => None
  end.

(** What the load effect makes of the two fields of a parsed value: each
    is taken on its own test, and kept as it was when the test fails. *)
Definition loaded_trackers (s : jsval) (before : list jsval) : list jsval :=
  match field s "trackers" with
  | Some (JArr items) => items
  | _ => before
  end.

Definition loaded_mode (s : jsval) (before : jsval) : jsval :=
  match field s "mode" with
  | Some v => if truthy (Some v) then v else before
  | None => before
  end.

(** The entry the load effect cannot use: absent, empty, not JSON, or the
    JSON [null]. *)
Definition unusable (JSON_parse : jsstring -> option jsval) (stored : option jsstring) : Prop :=
  match stored with
  | None => True
  | Some raw => raw = [] \/ JSON_parse raw = None \/ JSON_parse raw = Some JNull
  end.

(** The test of [handleRemove] on a tracker the application built. *)
Definition other_id (i : Z) (t : App.Tracker) : bool := negb (App.id t =? i).

(** The component state with another collection. *)
Definition with_trackers (ts : list jsval) (s : App.State) : App.State :=
  App.setTrackers (fun _ => ts) s.

End Store.

(** ** Concrete browsers and texts for the scenarios *)

Module Sample.
Import JS Helpers.

(** A date reader that knows the two texts of the specification's scenarios
    (read as UTC) and nothing else. *)
Definition dayjs_valueOf (text : jsstring) : option Z :=
  if str_eqb text (str "2099-01-01T00:00") then Some 4070908800000
  else if str_eqb text (str "2000-01-01T00:00") then Some 946684800000
  else None.

(** 1 June 2024, 00:00 UTC. *)
Definition june_2024 : Z := 1717200000000.

(** A clock that advances by a millisecond at each reading, and one that
    stands still over the readings (two submissions within one millisecond,
    or a clock set back in between). *)
Definition running_clock (n : nat) : Z := Z.of_nat n + june_2024.
Definition frozen_clock (n : nat) : Z := june_2024.

Definition browser (clock : nat -> Z) (stored : option jsstring) : World :=
  mkWorld clock 0 (fun _ => 7 # 10) 0 [] stored.

Definition fresh (clock : nat -> Z) (stored : option jsstring) : Machine App.State :=
  mkMachine (App.initial june_2024) (browser clock stored).

Definition fresh_single (clock : nat -> Z) : Machine Single.State :=
  mkMachine
    (Single.mkState (str "") (str "") None None june_2024 (JStr (str "circular")) 3)
    (browser clock None).

(** A tracker created in the millisecond [june_2024]. *)
Definition old_tracker : App.Tracker :=
  App.mkTracker june_2024 (str "Read a book") june_2024 4070908800000 2.

(** A parser that knows one text. *)
Definition parse_only (text : jsstring) (v : jsval) (raw : jsstring) : option jsval :=
  if str_eqb raw text then Some v else None.

(** A store worth saving, and the text [JSON.stringify] gives for its
    snapshot. *)
Definition saved_state : App.State :=
  App.mkState (str "") (str "") [App.tracker_obj old_tracker] june_2024 (JStr (str "bar")).

Definition saved_text : jsstring :=
  Store.json_text
    "{'trackers':[{'id':1717200000000,'goal':'Read a book','startTime':1717200000000,'deadline':4070908800000,'quoteIndex':2}],'mode':'bar'}".

(** An entry whose [trackers] is not an array, and the value it parses to. *)
Definition misshapen_text : jsstring := Store.json_text "{'trackers':7,'mode':'bar'}".

Definition misshapen_value : jsval :=
  JObj [ (str "trackers", JInt 7); (str "mode", JStr (str "bar")) ].




(** A store whose mode is [Infinity] (read from an entry with the mode
    [1e999]), the text [JSON.stringify] gives for its snapshot, and the value
    [JSON.parse] gives for that text. *)
Definition infinite_state : App.State :=
  App.mkState (str "") (str "") [] june_2024 (JInf false).

Definition infinite_text : jsstring := Store.json_text "{'trackers':[],'mode':null}".

Definition infinite_read_back : jsval :=
  JObj [ (str "trackers", JArr []); (str "mode", JNull) ].

End Sample.

(** ** What the cards print *)

Module View.
Import JS Helpers.
Local Open Scope js_scope.

(** The decimal digit [d] as a code unit. *)
Definition digit (d : Z) : N := Z.to_N (48 + d).

(** [n.toString()] for an integer [n >= 0]: its decimal digits, most
    significant first. [fuel] bounds the number of digits. *)
Fixpoint digits (fuel : nat) (n : Z) : jsstring :=
  match fuel with
  | O => []
  | Datatypes.S fuel' =>
      if n <? 10 then [digit n]
      else digits fuel' (n / 10) ++ [digit (n mod 10)]
  end.

Definition toString (n : Z) : jsstring := digits (Datatypes.S (Z.to_nat n)) n.

(** [s.padStart(target, fill)] for a filler of one code unit. *)
Definition padStart (target : nat) (fill : N) (s : jsstring) : jsstring :=
  repeat fill (target - List.length s) ++ s.

(** [function pad2(n)]. *)
Definition pad2 (n : Z) : jsstring := padStart 2 48%N (toString n).

(** The number a string of decimal digits denotes. *)
Definition value_of (s : jsstring) : Z :=
  fold_left (fun acc c => acc * 10 + (Z.of_N c - 48)) s 0.

(** The four [TimeBlock] values of a card:
    [String(days)], [pad2(hours)], [pad2(minutes)], [pad2(seconds)]. *)
Definition TimeBlocks (p : DHMS) : list jsstring :=
  [ toString (days p); pad2 (hours p); pad2 (minutes p); pad2 (seconds p) ].

(** [Math.round(x)]: the nearest integer, a half going up. *)
Definition Math_round (x : jsnum) : jsnum :=
  match x with
  | Fin q => Fin (inject_Z (Qfloor (q + (1 # 2))))
  | other => other
  end.

(** The number [CircularProgress] prints before the percent sign, also
    printed in the footer of the card. The code rounds the binary64
    percentage, which can lie on the other side of a half than the exact
    one (23000 of 40000 ms is 57.49999999999999 and prints 57, the exact
    57.5 rounds to 58); only what holds for both is stated of the label. *)
Definition CircularProgress_label (percent : jsnum) : jsnum := Math_round percent.

(** The width, in percent, [GradientBar] animates to. *)
Definition GradientBar_width (percent : jsnum) : jsnum :=
  clampN percent (of_int 0) (of_int 100).

End View.

(** ** Sequences of events *)

Module Session.
Import JS Helpers.
Local Open Scope js_scope.

(** [n] firings of the ticker. *)
Fixpoint ticks (n : nat) : M App.State unit :=
  match n with
  | O => ret tt
  | Datatypes.S k => App.tick ;;; ticks k
  end.

Inductive Button : Type := Circular | Bar.

Definition click (b : Button) : M App.State unit :=
  match b with
  | Circular => App.click_circular
  | Bar => App.click_bar
  end.

Definition button_visual (b : Button) : App.Visual :=
  match b with
  | Circular => App.CircularProgress
  | Bar => App.GradientBar
  end.

(** Clicks on the mode toggle, first to last. *)
Fixpoint clicks (bs : list Button) : M App.State unit :=
  match bs with
  | [] => ret tt
  | b :: rest => click b ;;; clicks rest
  end.

End Session.

(** * Properties *)

Import JS Helpers.

(** ** Time arithmetic *)

Section TimeMath.

Lemma totalSeconds_floor (ms : Z) : totalSeconds ms = Z.max 0 ms / 1000.
Proof.
  unfold totalSeconds.
  destruct (Z.max_spec 0 ms) as [[Hlt ->] | [Hge ->]];
    destruct (Z.max_spec 0 (ms / 1000)) as [[Hq ->] | [Hq ->]];
    Z.div_mod_to_equations; lia.
Qed.

Lemma totalSeconds_nonneg (ms : Z) : 0 <= totalSeconds ms.
Proof. unfold totalSeconds. lia. Qed.

Lemma rem_nonneg (a b : Z) : 0 <= a -> 0 < b -> rem a b = a mod b.
Proof. intros Ha Hb. unfold rem. now apply Z.rem_mod_nonneg. Qed.

Lemma clamp_clampZ (n lo hi : Z) :
  lo <= hi -> clamp n lo hi = SpecWords.clampZ n lo hi.
Proof.
  intros Hle. unfold clamp, SpecWords.clampZ.
  destruct (n <? lo) eqn:E1; [apply Z.ltb_lt in E1 | apply Z.ltb_ge in E1];
    destruct (hi <? n) eqn:E2; [apply Z.ltb_lt in E2 | apply Z.ltb_ge in E2
                               | apply Z.ltb_lt in E2 | apply Z.ltb_ge in E2]; lia.
Qed.

Lemma Qle_bool_false (x y : Q) : Qle_bool x y = false -> (y < x)%Q.
Proof.
  intros H. apply Qnot_le_lt. intros Hle.
  apply Qle_bool_iff in Hle. congruence.
Qed.

Lemma clampN_clampQ (x lo hi : Q) :
  (lo <= hi)%Q -> clampN (Fin x) (Fin lo) (Fin hi) = Fin (SpecWords.clampQ x lo hi).
Proof.
  intros Hle. unfold clampN, SpecWords.clampQ, Math_min, Math_max.
  destruct (Qle_bool x hi) eqn:E1; destruct (Qle_bool lo x) eqn:E2; try reflexivity.
  - apply Qle_bool_iff in Hle. now rewrite Hle.
  - apply Qle_bool_false in E1. apply Qle_bool_false in E2.
    exfalso. apply (Qlt_irrefl x).
    apply Qlt_le_trans with lo; [assumption|].
    apply Qle_trans with hi; [assumption|]. now apply Qlt_le_weak.
Qed.

Lemma clampQ_range (x lo hi : Q) :
  (lo <= hi)%Q -> (lo <= SpecWords.clampQ x lo hi <= hi)%Q.
Proof.
  intros Hle. unfold SpecWords.clampQ.
  destruct (Qle_bool lo x) eqn:E2.
  - apply Qle_bool_iff in E2.
    destruct (Qle_bool x hi) eqn:E1.
    + apply Qle_bool_iff in E1. now split.
    + split; [assumption | apply Qle_refl].
  - split; [apply Qle_refl | assumption].
Qed.

Lemma clampQ_mono (x y lo hi : Q) :
  (lo <= hi)%Q -> (x <= y)%Q ->
  (SpecWords.clampQ x lo hi <= SpecWords.clampQ y lo hi)%Q.
Proof.
  intros Hle Hxy. unfold SpecWords.clampQ.
  destruct (Qle_bool lo x) eqn:Ex; destruct (Qle_bool lo y) eqn:Ey;
    destruct (Qle_bool x hi) eqn:Exh; destruct (Qle_bool y hi) eqn:Eyh;
    repeat match goal with
           | H : Qle_bool _ _ = true |- _ => apply Qle_bool_iff in H
           | H : Qle_bool _ _ = false |- _ => apply Qle_bool_false in H
           end;
    try assumption; try apply Qle_refl;
    try (exfalso;
         first [ apply (Qlt_irrefl lo); eapply Qle_lt_trans; [|eassumption];
                 eapply Qle_trans; eassumption
               | apply (Qlt_irrefl hi); eapply Qlt_le_trans; [eassumption|];
                 eapply Qle_trans; eassumption ]).
Qed.

(** The quotient the card computes is a finite Number whenever the divisor
    is positive. *)
Lemma div_pos (a b : Z) : 0 < b -> div a b = Fin (inject_Z a / inject_Z b)%Q.
Proof.
  intros Hb. unfold div. destruct (b =? 0) eqn:E; [|reflexivity].
  apply Z.eqb_eq in E. lia.
Qed.

Lemma TrackerCard_percent (s d n : Z) :
  percent (App.TrackerCard s d n) =
  Fin (SpecWords.clampQ
         (inject_Z (clamp (n - s) 0 (Z.max 1 (d - s))) / inject_Z (Z.max 1 (d - s)) * 100)%Q
         0 100).
Proof.
  unfold App.TrackerCard. cbn [percent].
  rewrite div_pos by lia. unfold mul, of_int.
  rewrite clampN_clampQ by (unfold Qle; simpl; lia).
  reflexivity.
Qed.

Lemma Qdiv_le_mono (a b t : Z) :
  0 < t -> a <= b -> (inject_Z a / inject_Z t * 100 <= inject_Z b / inject_Z t * 100)%Q.
Proof.
  intros Ht Hab.
  apply Qmult_le_compat_r; [|discriminate].
  apply Qmult_le_compat_r.
  - now rewrite <- Zle_Qle.
  - apply Qinv_le_0_compat. change 0%Q with (inject_Z 0). rewrite <- Zle_Qle. lia.
Qed.

End TimeMath.

(** The scenario of the specification: a 100 s span, a quarter elapsed. *)
Example scenario_quarter :
  let p := App.TrackerCard 0 100000 25000 in
  remainingMs p = 75000 /\
  (exists q, percent p = Fin q /\ (q == 25)%Q) /\
  msToDHMS (remainingMs p) = mkDHMS 0 0 1 15.
Proof.
  cbv zeta. repeat split.
  eexists. split; [vm_compute; reflexivity | reflexivity].
Qed.

(** A span of length zero does not divide by zero: the divisor is 1. *)
Example scenario_zero_span :
  App.TrackerCard 7 7 7 = mkProgress 1 0 0 (Fin (0 # 1)).
Proof. vm_compute. reflexivity. Qed.

(** C1. For integer instants with [deadline > startTime], the card (and the
    single-tracker [useMemo]) computes the four figures of the
    specification's [deriveProgress]: [totalMs = max(1, deadline - startTime)],
    [elapsedMs = clamp(now - startTime, 0, totalMs)],
    [remainingMs = max(0, deadline - now)] and
    [percent = clamp(elapsedMs / totalMs * 100, 0, 100)]; the divisor is not
    zero and the quotient and the percentage are finite Numbers. *)
Theorem TrackerCard_meets_deriveProgress (startTime deadline now : Z) :
  startTime < deadline ->
  let p := App.TrackerCard startTime deadline now in
  let f := SpecWords.deriveProgress startTime deadline now in
  totalMs p = SpecWords.f_totalMs f /\
  elapsedMs p = SpecWords.f_elapsedMs f /\
  remainingMs p = SpecWords.f_remainingMs f /\
  percent p = Fin (SpecWords.f_percent f) /\
  totalMs p <> 0 /\
  is_finite (div (elapsedMs p) (totalMs p)) = true /\
  Single.derived (Some startTime) (Some deadline) now = p.
Proof.
  intros Hlt p f.
  assert (Het : elapsedMs p = SpecWords.f_elapsedMs f).
  { subst p f. cbn [App.TrackerCard elapsedMs SpecWords.deriveProgress SpecWords.f_elapsedMs].
    apply clamp_clampZ. lia. }
  repeat split.
  - exact Het.
  - subst p f. rewrite TrackerCard_percent.
    cbn [SpecWords.deriveProgress SpecWords.f_percent].
    now rewrite clamp_clampZ by lia.
  - subst p. cbn [App.TrackerCard totalMs]. lia.
  - subst p. cbn [App.TrackerCard totalMs elapsedMs].
    now rewrite div_pos by lia.
Qed.

Lemma TrackerCard_meets_deriveProgress_witness :
  0 < 100000 /\
  percent (App.TrackerCard 0 100000 25000) =
  Fin (SpecWords.f_percent (SpecWords.deriveProgress 0 100000 25000)).
Proof.
  split; [lia|].
  exact (proj1 (proj2 (proj2 (proj2
           (TrackerCard_meets_deriveProgress 0 100000 25000 ltac:(lia)))))).
Defined.

(** C3. With [startTime <= deadline], for instants
    [startTime <= now1 <= now2 <= deadline] both percentages are finite,
    lie in [0, 100], and the earlier one is not the larger: the percentage
    is bounded and does not decrease as [now] advances. *)
Theorem percent_bounded_monotone (startTime deadline now1 now2 : Z) :
  startTime <= deadline ->
  startTime <= now1 -> now1 <= now2 -> now2 <= deadline ->
  exists q1 q2 : Q,
    percent (App.TrackerCard startTime deadline now1) = Fin q1 /\
    percent (App.TrackerCard startTime deadline now2) = Fin q2 /\
    (0 <= q1 <= 100)%Q /\ (0 <= q2 <= 100)%Q /\ (q1 <= q2)%Q.
Proof.
  intros Hsd H1 H12 H2.
  assert (H0100 : (0 <= 100)%Q) by (unfold Qle; simpl; lia).
  do 2 eexists. rewrite !TrackerCard_percent.
  split; [reflexivity|]. split; [reflexivity|].
  split; [now apply clampQ_range|]. split; [now apply clampQ_range|].
  apply clampQ_mono; [assumption|].
  apply Qdiv_le_mono; [lia|]. unfold clamp. lia.
Qed.

Lemma percent_bounded_monotone_witness :
  exists q1 q2 : Q,
    percent (App.TrackerCard 0 100000 25000) = Fin q1 /\
    percent (App.TrackerCard 0 100000 50000) = Fin q2 /\
    (0 <= q1 <= 100)%Q /\ (0 <= q2 <= 100)%Q /\ (q1 <= q2)%Q.
Proof.
  apply (percent_bounded_monotone 0 100000 25000 50000); lia.
Defined.

(** C4. With [deadline > startTime], at every [now >= deadline] the
    remaining time is 0 and the percentage is 100 (the card shows its
    expired message); this holds at every such [now], however late. *)
Theorem expired_progress (startTime deadline now : Z) :
  startTime < deadline -> deadline <= now ->
  let p := App.TrackerCard startTime deadline now in
  remainingMs p = 0 /\
  (exists q : Q, percent p = Fin q /\ (q == 100)%Q) /\
  App.TrackerCard_expired startTime deadline now = true.
Proof.
  intros Hlt Hge p.
  assert (Hr : remainingMs p = 0).
  { subst p. cbn [App.TrackerCard remainingMs]. lia. }
  split; [exact Hr|]. split.
  - subst p. rewrite TrackerCard_percent.
    replace (clamp (now - startTime) 0 (Z.max 1 (deadline - startTime)))
      with (Z.max 1 (deadline - startTime)) by (unfold clamp; lia).
    set (t := Z.max 1 (deadline - startTime)).
    assert (Hx : (inject_Z t / inject_Z t * 100 == 100)%Q).
    { unfold Qdiv. rewrite Qmult_inv_r.
      - apply Qmult_1_l.
      - intros Hz. assert (Ht : t = 0) by (apply (proj1 (inject_Z_injective t 0)); exact Hz).
        subst t. lia. }
    eexists. split; [reflexivity|].
    unfold SpecWords.clampQ.
    assert (E1 : Qle_bool 0 (inject_Z t / inject_Z t * 100) = true).
    { apply Qle_bool_iff. rewrite Hx. unfold Qle; simpl; lia. }
    assert (E2 : Qle_bool (inject_Z t / inject_Z t * 100) 100 = true).
    { apply Qle_bool_iff. rewrite Hx. apply Qle_refl. }
    rewrite E1, E2. exact Hx.
  - unfold App.TrackerCard_expired. fold p. rewrite Hr. reflexivity.
Qed.

Lemma expired_progress_witness :
  remainingMs (App.TrackerCard 0 100000 100000) = 0 /\
  remainingMs (App.TrackerCard 0 100000 987654321) = 0.
Proof.
  split.
  - apply (expired_progress 0 100000 100000); lia.
  - apply (expired_progress 0 100000 987654321); lia.
Defined.

(** C5. For every integer [ms], a negative one counting as zero,
    [msToDHMS] returns the floor decomposition of
    [totalSeconds = floor(max(0, ms) / 1000)]: days, hours, minutes and
    seconds are the stated quotients and remainders, hours lie in [0, 23],
    minutes and seconds in [0, 59], the parts sum back to [totalSeconds],
    and days takes every natural value. *)
Theorem msToDHMS_parts (ms : Z) :
  let ts := Z.max 0 ms / 1000 in
  let p := msToDHMS ms in
  totalSeconds ms = ts /\
  days p = ts / 86400 /\
  hours p = (ts mod 86400) / 3600 /\
  minutes p = (ts mod 3600) / 60 /\
  seconds p = ts mod 60 /\
  0 <= days p /\ 0 <= hours p <= 23 /\ 0 <= minutes p <= 59 /\ 0 <= seconds p <= 59 /\
  days p * 86400 + hours p * 3600 + minutes p * 60 + seconds p = ts /\
  (forall n : Z, 0 <= n -> days (msToDHMS (n * 86400000)) = n).
Proof.
  intros ts p.
  assert (Hts : totalSeconds ms = ts) by apply totalSeconds_floor.
  assert (H0 : 0 <= ts) by (rewrite <- Hts; apply totalSeconds_nonneg).
  assert (Hd : days p = ts / 86400) by (subst p; unfold msToDHMS; now rewrite Hts).
  assert (Hh : hours p = (ts mod 86400) / 3600).
  { subst p. unfold msToDHMS. cbn [hours]. now rewrite Hts, rem_nonneg by lia. }
  assert (Hm : minutes p = (ts mod 3600) / 60).
  { subst p. unfold msToDHMS. cbn [minutes]. now rewrite Hts, rem_nonneg by lia. }
  assert (Hs : seconds p = ts mod 60).
  { subst p. unfold msToDHMS. cbn [seconds]. now rewrite Hts, rem_nonneg by lia. }
  repeat match goal with |- _ /\ _ => split end; try assumption.
  - rewrite Hd. Z.div_mod_to_equations. lia.
  - rewrite Hh. Z.div_mod_to_equations. lia.
  - rewrite Hh. Z.div_mod_to_equations. lia.
  - rewrite Hm. Z.div_mod_to_equations. lia.
  - rewrite Hm. Z.div_mod_to_equations. lia.
  - rewrite Hs. Z.div_mod_to_equations. lia.
  - rewrite Hs. Z.div_mod_to_equations. lia.
  - rewrite Hd, Hh, Hm, Hs. Z.div_mod_to_equations. lia.
  - intros n Hn. unfold msToDHMS. cbn [days]. rewrite totalSeconds_floor.
    Z.div_mod_to_equations. lia.
Qed.

(** ** Creation: the rejections *)

Import Store.

(** How [validate] reads on the three tests of the handlers. *)
Lemma validate_EmptyGoal dayjs g dl t :
  trim g = [] -> validate dayjs g dl t = Some EmptyGoal.
Proof. intros H. unfold validate. now rewrite H. Qed.

Lemma validate_InvalidDeadline dayjs g dl t :
  trim g <> [] -> parse_deadline dayjs dl = None ->
  validate dayjs g dl t = Some InvalidDeadline.
Proof.
  intros Hg Hd. unfold validate. rewrite Hd.
  destruct (trim g); [congruence | reflexivity].
Qed.

Lemma validate_PastDeadline dayjs g dl t d :
  trim g <> [] -> parse_deadline dayjs dl = Some d -> d <= t ->
  validate dayjs g dl t = Some PastDeadline.
Proof.
  intros Hg Hd Hle. unfold validate. rewrite Hd.
  destruct (trim g); [congruence|]. cbn [is_empty].
  apply Z.leb_le in Hle. now rewrite Hle.
Qed.

Lemma validate_accepts dayjs g dl t :
  validate dayjs g dl t = None <->
  trim g <> [] /\ exists d, dl <> [] /\ dayjs dl = Some d /\ t < d.
Proof.
  unfold validate, parse_deadline. split.
  - destruct (trim g) eqn:Eg; cbn [is_empty]; [discriminate|].
    destruct dl as [|c dl']; cbn [is_empty]; [discriminate|].
    destruct (dayjs (c :: dl')) as [d|] eqn:Ed; [|discriminate].
    destruct (d <=? t) eqn:Et; [discriminate|]. intros _.
    apply Z.leb_gt in Et. split; [discriminate|].
    exists d. repeat split; [discriminate | assumption].
  - intros [Hg [d [Hdl [Hd Ht]]]].
    destruct (trim g); [congruence|]. cbn [is_empty].
    destruct dl; [congruence|]. cbn [is_empty]. rewrite Hd.
    apply Z.leb_gt in Ht. now rewrite Ht.
Qed.

Lemma validate_rejection_cases dayjs g dl t r :
  validate dayjs g dl t = Some r ->
  (r = EmptyGoal <-> trim g = []) /\
  (r = InvalidDeadline <-> trim g <> [] /\ parse_deadline dayjs dl = None) /\
  (r = PastDeadline <->
   trim g <> [] /\ exists d, parse_deadline dayjs dl = Some d /\ d <= t).
Proof.
  unfold validate.
  destruct (trim g) as [|c g'] eqn:Eg; cbn [is_empty].
  - intros [= <-]. split; [tauto|]. split; split; try discriminate; intros [H _]; congruence.
  - destruct (parse_deadline dayjs dl) as [d|] eqn:Ed.
    + destruct (d <=? t) eqn:Et; [|discriminate]. intros [= <-].
      apply Z.leb_le in Et.
      split; [split; discriminate|].
      split; [split; [discriminate | intros [_ H]; discriminate]|].
      split; [intros _ | reflexivity].
      split; [discriminate | exists d; now split].
    + intros [= <-].
      split; [split; discriminate|].
      split; [split; [intros _; split; [discriminate | reflexivity] | reflexivity]|].
      split; [discriminate | intros [_ [d [H _]]]; discriminate].
Qed.

Example trim_strips_both_ends :
  trim (str "  Ship it ") = str "Ship it" /\ trim (str "   ") = str "".
Proof. split; reflexivity. Qed.

(** C2. A submission that fails one of the three validations makes
    [handleAddTracker] end normally with the whole component state as it
    was (trackers, both inputs, [now], mode); the only effects are the alert
    of the rejection, raised before the handler returns, and, for
    [PastDeadline], the one reading of the clock. The rejection is
    [EmptyGoal] exactly when the goal is empty after trimming; otherwise
    [InvalidDeadline] exactly when the deadline text is empty or not a date;
    otherwise [PastDeadline], the deadline being not after the clock
    reading. *)
Theorem handleAddTracker_rejects
    (dayjs_valueOf : jsstring -> option Z) (m : Machine App.State) (r : Rejection) :
  validate dayjs_valueOf (App.goalInput (react m)) (App.deadlineInput (react m))
    (next_now (world m)) = Some r ->
  App.handleAddTracker dayjs_valueOf m
  = (Ok tt, mkMachine (react m) (rejected r (world m))) /\
  alerts (rejected r (world m)) = alerts (world m) ++ [message r] /\
  (r = EmptyGoal <-> trim (App.goalInput (react m)) = []) /\
  (r = InvalidDeadline <->
   trim (App.goalInput (react m)) <> [] /\
   parse_deadline dayjs_valueOf (App.deadlineInput (react m)) = None) /\
  (r = PastDeadline <->
   trim (App.goalInput (react m)) <> [] /\
   exists d, parse_deadline dayjs_valueOf (App.deadlineInput (react m)) = Some d /\
             d <= next_now (world m)).
Proof.
  intros Hv. split; [|split; [now destruct r | now apply validate_rejection_cases]].
  revert Hv.
  destruct m as [st w]. cbn [react world].
  unfold validate, parse_deadline, App.handleAddTracker, bind, render. cbn [react world].
  destruct (is_empty (trim (App.goalInput st))).
  - intros [= <-]. reflexivity.
  - destruct (is_empty (App.deadlineInput st)).
    + intros [= <-]. now destruct (dayjs_valueOf (App.deadlineInput st)).
    + destruct (dayjs_valueOf (App.deadlineInput st)) as [d|].
      * unfold Date_now, next_now. cbn [react world].
        destruct (d <=? clock w (clock_reads w)); [|discriminate].
        intros [= <-]. reflexivity.
      * intros [= <-]. reflexivity.
Qed.

(** The single-tracker handler rejects the same way. *)
Lemma handleStart_rejects
    (dayjs_valueOf : jsstring -> option Z) (m : Machine Single.State) (r : Rejection) :
  validate dayjs_valueOf (Single.goal (react m)) (Single.deadlineInput (react m))
    (next_now (world m)) = Some r ->
  Single.handleStart dayjs_valueOf m
  = (Ok tt, mkMachine (react m) (rejected r (world m))).
Proof.
  destruct m as [st w]. cbn [react world].
  unfold validate, parse_deadline, Single.handleStart, bind, render. cbn [react world].
  destruct (is_empty (trim (Single.goal st))).
  - intros [= <-]. reflexivity.
  - destruct (is_empty (Single.deadlineInput st)).
    + intros [= <-]. now destruct (dayjs_valueOf (Single.deadlineInput st)).
    + destruct (dayjs_valueOf (Single.deadlineInput st)) as [d|].
      * unfold Date_now, next_now. cbn [react world].
        destruct (d <=? clock w (clock_reads w)); [|discriminate].
        intros [= <-]. reflexivity.
      * intros [= <-]. reflexivity.
Qed.

Lemma handleAddTracker_rejects_witness :
  App.handleAddTracker Sample.dayjs_valueOf
    (mkMachine (App.setDeadlineInput (str "2000-01-01T00:00")
                  (App.setGoalInput (str "Ship it") (App.initial Sample.june_2024)))
               (Sample.browser Sample.running_clock None))
  = (Ok tt,
     mkMachine (App.setDeadlineInput (str "2000-01-01T00:00")
                  (App.setGoalInput (str "Ship it") (App.initial Sample.june_2024)))
               (rejected PastDeadline (Sample.browser Sample.running_clock None))).
Proof.
  apply (proj1 (handleAddTracker_rejects Sample.dayjs_valueOf
           (mkMachine (App.setDeadlineInput (str "2000-01-01T00:00")
                         (App.setGoalInput (str "Ship it") (App.initial Sample.june_2024)))
                      (Sample.browser Sample.running_clock None))
           PastDeadline ltac:(vm_compute; reflexivity))).
Defined.

(** The two rejection scenarios of the specification. *)
Example scenario_empty_goal :
  let r := create Sample.dayjs_valueOf (str "") (str "2099-01-01T00:00")
             (Sample.fresh Sample.running_clock None) in
  fst r = Ok tt /\
  App.trackers (react (snd r)) = [] /\
  alerts (world (snd r)) = [message EmptyGoal].
Proof. vm_compute. repeat split. Qed.

Example scenario_past_deadline :
  let r := create Sample.dayjs_valueOf (str "Ship it") (str "2000-01-01T00:00")
             (Sample.fresh Sample.running_clock None) in
  fst r = Ok tt /\
  App.trackers (react (snd r)) = [] /\
  alerts (world (snd r)) = [message PastDeadline].
Proof. vm_compute. repeat split. Qed.

(** ** Creation: the accepted submission *)

Lemma handleAddTracker_accepts
    (dayjs_valueOf : jsstring -> option Z) (m : Machine App.State) :
  validate dayjs_valueOf (App.goalInput (react m)) (App.deadlineInput (react m))
    (next_now (world m)) = None ->
  exists d : Z,
    dayjs_valueOf (App.deadlineInput (react m)) = Some d /\
    next_now (world m) < d /\
    App.handleAddTracker dayjs_valueOf m
    = (Ok tt,
       mkMachine
         (App.mkState (str "") (str "")
            (App.trackers (react m)
               ++ [App.tracker_obj (new_tracker (App.goalInput (react m)) d (world m))])
            (App.now (react m)) (App.mode (react m)))
         (accepted (world m))).
Proof.
  intros Hv. apply validate_accepts in Hv. destruct Hv as [Hg [d [Hdl [Hd Ht]]]].
  exists d. split; [assumption|]. split; [assumption|].
  destruct m as [st w]. cbn [react world] in *.
  unfold App.handleAddTracker, bind, render. cbn [react world].
  destruct (trim (App.goalInput st)) as [|c g'] eqn:Eg; [congruence|]. cbn [is_empty].
  rewrite Hd. destruct (App.deadlineInput st) as [|c' dl'] eqn:Edl; [congruence|].
  cbn [is_empty]. unfold Date_now, next_now in *. cbn [react world clock clock_reads].
  apply Z.leb_gt in Ht. rewrite Ht.
  unfold Math_random, set_state, new_tracker, later_now, next_random, accepted.
  cbn [react world clock clock_reads random random_draws alerts storage].
  rewrite Eg. reflexivity.
Qed.

Lemma create_accepts
    (dayjs_valueOf : jsstring -> option Z) (m : Machine App.State)
    (goalText deadlineText : jsstring) :
  validate dayjs_valueOf goalText deadlineText (next_now (world m)) = None ->
  exists d : Z,
    dayjs_valueOf deadlineText = Some d /\
    next_now (world m) < d /\
    create dayjs_valueOf goalText deadlineText m
    = (Ok tt,
       mkMachine
         (App.mkState (str "") (str "")
            (App.trackers (react m) ++ [App.tracker_obj (new_tracker goalText d (world m))])
            (App.now (react m)) (App.mode (react m)))
         (accepted (world m))).
Proof.
  intros Hv.
  destruct (handleAddTracker_accepts dayjs_valueOf
              (mkMachine (App.setDeadlineInput deadlineText
                            (App.setGoalInput goalText (react m))) (world m)) Hv)
    as [d [Hd [Ht He]]].
  exists d. split; [exact Hd|]. split; [exact Ht|].
  exact He.
Qed.

Lemma map_tracker_obj_snoc (col : list App.Tracker) (t : App.Tracker) :
  List.map App.tracker_obj col ++ [App.tracker_obj t] = List.map App.tracker_obj (col ++ [t]).
Proof. now rewrite List.map_app. Qed.

Lemma NoDup_snoc (l : list Z) (x : Z) :
  NoDup (l ++ [x]) <-> NoDup l /\ ~ In x l.
Proof.
  induction l as [|a l IH]; cbn [app].
  - split.
    + intros _. split; [constructor | intros []].
    + intros _. constructor; [intros [] | constructor].
  - rewrite !NoDup_cons_iff, IH, in_app_iff. cbn [In]. intuition congruence.
Qed.

(** The submissions of one session with a clock that advances. *)
Example scenario_two_creates_running_clock :
  let m2 := snd (create Sample.dayjs_valueOf (str "Write docs") (str "2099-01-01T00:00")
              (snd (create Sample.dayjs_valueOf (str "Ship it") (str "2099-01-01T00:00")
                      (Sample.fresh Sample.running_clock None)))) in
  App.trackers (react m2)
  = List.map App.tracker_obj
      [ App.mkTracker (Sample.june_2024 + 1) (str "Ship it") (Sample.june_2024 + 2)
          4070908800000 7;
        App.mkTracker (Sample.june_2024 + 4) (str "Write docs") (Sample.june_2024 + 5)
          4070908800000 7 ].
Proof. vm_compute. reflexivity. Qed.

(** C6, as the code has it. Two successive accepted submissions append
    their trackers at the end, in the order of submission, the goals
    trimmed; the id of each is the reading of the clock taken when its
    object is built (the second reading of its submission). No other
    allocation of ids exists: if the ids of the collection were pairwise
    distinct, and the two readings are not among them and differ from each
    other, the ids are pairwise distinct afterwards. *)
Theorem creates_append_with_clock_ids
    (dayjs_valueOf : jsstring -> option Z) (m : Machine App.State)
    (col : list App.Tracker) (g1 dl1 g2 dl2 : jsstring) :
  App.trackers (react m) = List.map App.tracker_obj col ->
  validate dayjs_valueOf g1 dl1 (next_now (world m)) = None ->
  validate dayjs_valueOf g2 dl2 (later_now 3 (world m)) = None ->
  exists (t1 t2 : App.Tracker) (m1 m2 : Machine App.State),
    create dayjs_valueOf g1 dl1 m = (Ok tt, m1) /\
    create dayjs_valueOf g2 dl2 m1 = (Ok tt, m2) /\
    App.trackers (react m1) = List.map App.tracker_obj (col ++ [t1]) /\
    App.trackers (react m2) = List.map App.tracker_obj (col ++ [t1; t2]) /\
    App.goal t1 = trim g1 /\ App.goal t2 = trim g2 /\
    App.id t1 = later_now 1 (world m) /\
    App.id t2 = later_now 4 (world m) /\
    (NoDup (List.map App.id col) ->
     ~ In (later_now 1 (world m)) (List.map App.id col) ->
     ~ In (later_now 4 (world m)) (List.map App.id col) ->
     later_now 1 (world m) <> later_now 4 (world m) ->
     NoDup (List.map App.id (col ++ [t1; t2]))).
Proof.
  intros Hcol Hv1 Hv2.
  destruct (create_accepts dayjs_valueOf m g1 dl1 Hv1) as [d1 [_ [_ He1]]].
  set (m1 := mkMachine
         (App.mkState (str "") (str "")
            (App.trackers (react m) ++ [App.tracker_obj (new_tracker g1 d1 (world m))])
            (App.now (react m)) (App.mode (react m)))
         (accepted (world m))) in *.
  assert (Hv2' : validate dayjs_valueOf g2 dl2 (next_now (world m1)) = None) by exact Hv2.
  destruct (create_accepts dayjs_valueOf m1 g2 dl2 Hv2') as [d2 [_ [_ He2]]].
  exists (new_tracker g1 d1 (world m)), (new_tracker g2 d2 (world m1)), m1.
  eexists. split; [exact He1|]. split; [exact He2|].
  cbn [react App.trackers]. subst m1. cbn [react world App.trackers].
  rewrite Hcol.
  split; [apply map_tracker_obj_snoc|].
  split.
  { rewrite map_tracker_obj_snoc, map_tracker_obj_snoc, <- app_assoc. reflexivity. }
  repeat split.
  intros Hnd H1 H4 Hne.
  replace (col ++ [new_tracker g1 d1 (world m); new_tracker g2 d2 (accepted (world m))])
    with ((col ++ [new_tracker g1 d1 (world m)]) ++ [new_tracker g2 d2 (accepted (world m))])
    by (now rewrite <- app_assoc).
  rewrite !List.map_app. cbn [List.map].
  apply NoDup_snoc. split.
  - apply NoDup_snoc. split; assumption.
  - intros Hin. apply in_app_or in Hin. destruct Hin as [Hin | [Heq | []]].
    + apply H4. exact Hin.
    + apply Hne. exact Heq.
Qed.

Lemma creates_append_with_clock_ids_witness :
  exists (t1 t2 : App.Tracker) (m1 m2 : Machine App.State),
    create Sample.dayjs_valueOf (str "Ship it") (str "2099-01-01T00:00")
      (Sample.fresh Sample.running_clock None) = (Ok tt, m1) /\
    create Sample.dayjs_valueOf (str " Write docs ") (str "2099-01-01T00:00") m1
    = (Ok tt, m2) /\
    App.trackers (react m1) = List.map App.tracker_obj ([] ++ [t1]) /\
    App.trackers (react m2) = List.map App.tracker_obj ([] ++ [t1; t2]) /\
    App.goal t1 = trim (str "Ship it") /\ App.goal t2 = trim (str " Write docs ") /\
    App.id t1 = later_now 1 (world (Sample.fresh Sample.running_clock None)) /\
    App.id t2 = later_now 4 (world (Sample.fresh Sample.running_clock None)) /\
    (NoDup (List.map App.id []) ->
     ~ In (later_now 1 (world (Sample.fresh Sample.running_clock None))) (List.map App.id []) ->
     ~ In (later_now 4 (world (Sample.fresh Sample.running_clock None))) (List.map App.id []) ->
     later_now 1 (world (Sample.fresh Sample.running_clock None))
     <> later_now 4 (world (Sample.fresh Sample.running_clock None)) ->
     NoDup (List.map App.id ([] ++ [t1; t2]))).
Proof.
  apply (creates_append_with_clock_ids Sample.dayjs_valueOf
           (Sample.fresh Sample.running_clock None) []
           (str "Ship it") (str "2099-01-01T00:00")
           (str " Write docs ") (str "2099-01-01T00:00")).
  - reflexivity.
  - vm_compute. reflexivity.
  - vm_compute. reflexivity.
Defined.

(** Against C6 as stated: with a clock that gives the same reading to both
    submissions, two accepted submissions with distinct goals yield two
    trackers with one id. *)
Lemma repeated_reading_repeats_id :
  let r1 := create Sample.dayjs_valueOf (str "Ship it") (str "2099-01-01T00:00")
              (Sample.fresh Sample.frozen_clock None) in
  let r2 := create Sample.dayjs_valueOf (str "Write docs") (str "2099-01-01T00:00")
              (snd r1) in
  let t1 := App.mkTracker Sample.june_2024 (str "Ship it") Sample.june_2024
              4070908800000 7 in
  let t2 := App.mkTracker Sample.june_2024 (str "Write docs") Sample.june_2024
              4070908800000 7 in
  fst r1 = Ok tt /\ fst r2 = Ok tt /\
  App.trackers (react (snd r2)) = List.map App.tracker_obj [t1; t2] /\
  App.goal t1 <> App.goal t2 /\
  App.id t1 = App.id t2 /\
  ~ NoDup (List.map App.id [t1; t2]).
Proof.
  cbv zeta. split; [vm_compute; reflexivity|]. split; [vm_compute; reflexivity|].
  split; [vm_compute; reflexivity|]. split; [vm_compute; discriminate|].
  split; [reflexivity|].
  cbn [List.map App.id]. intros H. apply NoDup_cons_iff in H.
  destruct H as [H _]. apply H. now left.
Qed.

(** ** Removal *)

Lemma get_id_tracker_obj (t : App.Tracker) :
  get_prop (App.tracker_obj t) (str "id") = Ok (Some (JInt (App.id t))).
Proof. reflexivity. Qed.

Lemma strict_neq_num_JInt (a i : Z) :
  strict_neq_num (Some (JInt a)) i = negb (a =? i).
Proof.
  unfold strict_neq_num, JInt. f_equal.
  destruct (a =? i) eqn:E.
  - apply Z.eqb_eq in E. subst. apply Qeq_bool_iff. reflexivity.
  - apply Z.eqb_neq in E. destruct (Qeq_bool (inject_Z a) (inject_Z i)) eqn:Eq; [|reflexivity].
    apply Qeq_bool_iff in Eq. apply (proj1 (inject_Z_injective a i)) in Eq. contradiction.
Qed.

Lemma filter_other_ids_trackers (i : Z) (col : list App.Tracker) :
  App.filter_other_ids i (List.map App.tracker_obj col)
  = Ok (List.map App.tracker_obj (List.filter (other_id i) col)).
Proof.
  induction col as [|t col IH]; [reflexivity|].
  cbn [List.map App.filter_other_ids List.filter].
  rewrite get_id_tracker_obj, IH, strict_neq_num_JInt.
  unfold other_id. now destruct (App.id t =? i).
Qed.

Lemma filter_other_id_absent (i : Z) (col : list App.Tracker) :
  ~ In i (List.map App.id col) -> List.filter (other_id i) col = col.
Proof.
  induction col as [|t col IH]; [reflexivity|].
  cbn [List.map In List.filter]. intros H. unfold other_id at 1.
  destruct (App.id t =? i) eqn:E.
  - apply Z.eqb_eq in E. exfalso. apply H. now left.
  - cbn [negb]. f_equal. apply IH. intros Hin. apply H. now right.
Qed.

Lemma handleRemove_filters (i : Z) (m : Machine App.State) (col : list App.Tracker) :
  App.trackers (react m) = List.map App.tracker_obj col ->
  App.handleRemove i m
  = (Ok tt,
     mkMachine (with_trackers (List.map App.tracker_obj (List.filter (other_id i) col)) (react m))
               (world m)).
Proof.
  intros Hcol. unfold App.handleRemove, bind, render, lift.
  rewrite Hcol, filter_other_ids_trackers. reflexivity.
Qed.

Lemma handleRemove_absent (i : Z) (m : Machine App.State) (col : list App.Tracker) :
  App.trackers (react m) = List.map App.tracker_obj col ->
  ~ In i (List.map App.id col) ->
  App.handleRemove i m = (Ok tt, m).
Proof.
  intros Hcol Hi. rewrite (handleRemove_filters i m col Hcol).
  rewrite filter_other_id_absent by assumption. rewrite <- Hcol.
  destruct m as [[g d ts n md] w]. reflexivity.
Qed.

Lemma filter_length_present (i : Z) (col : list App.Tracker) :
  In i (List.map App.id col) ->
  (List.length (List.filter (other_id i) col) < List.length col)%nat.
Proof.
  induction col as [|t col IH]; cbn [List.map In List.filter List.length]; [intros []|].
  intros [Heq | Hin].
  - unfold other_id at 1. rewrite Heq, Z.eqb_refl. cbn [negb].
    pose proof (List.filter_length_le (other_id i) col). lia.
  - specialize (IH Hin). destruct (other_id i t); cbn [List.length]; lia.
Qed.

(** C7, as the code has it. An accepted submission followed by
    [handleRemove] of the new tracker's id gives back the collection of
    before, same trackers in the same order, when that id (a reading of the
    clock) is not already the id of a tracker of the collection; when it is,
    the removal also takes those trackers away. [handleRemove] keeps
    exactly the trackers with another id, in their order ([filter]), so it
    changes nothing when no tracker has the id, and it does not throw. *)
Theorem create_then_remove
    (dayjs_valueOf : jsstring -> option Z) (m : Machine App.State)
    (col : list App.Tracker) (goalText deadlineText : jsstring) :
  App.trackers (react m) = List.map App.tracker_obj col ->
  validate dayjs_valueOf goalText deadlineText (next_now (world m)) = None ->
  exists (t : App.Tracker) (m1 m2 : Machine App.State),
    create dayjs_valueOf goalText deadlineText m = (Ok tt, m1) /\
    App.trackers (react m1) = List.map App.tracker_obj (col ++ [t]) /\
    App.id t = later_now 1 (world m) /\
    App.handleRemove (App.id t) m1 = (Ok tt, m2) /\
    App.trackers (react m2)
    = List.map App.tracker_obj (List.filter (other_id (App.id t)) col) /\
    (~ In (App.id t) (List.map App.id col) ->
     App.trackers (react m2) = App.trackers (react m)) /\
    (In (App.id t) (List.map App.id col) ->
     App.trackers (react m2) <> App.trackers (react m)) /\
    (forall i : Z,
       App.handleRemove i m
       = (Ok tt,
          mkMachine
            (with_trackers (List.map App.tracker_obj (List.filter (other_id i) col)) (react m))
            (world m))) /\
    (forall i : Z, ~ In i (List.map App.id col) -> App.handleRemove i m = (Ok tt, m)).
Proof.
  intros Hcol Hv.
  destruct (create_accepts dayjs_valueOf m goalText deadlineText Hv) as [d [_ [_ He]]].
  set (t := new_tracker goalText d (world m)).
  set (m1 := mkMachine
         (App.mkState (str "") (str "")
            (App.trackers (react m) ++ [App.tracker_obj t])
            (App.now (react m)) (App.mode (react m)))
         (accepted (world m))) in *.
  assert (Hcol1 : App.trackers (react m1) = List.map App.tracker_obj (col ++ [t])).
  { subst m1. cbn [react App.trackers]. rewrite Hcol. apply map_tracker_obj_snoc. }
  assert (Hf : List.filter (other_id (App.id t)) (col ++ [t])
               = List.filter (other_id (App.id t)) col).
  { rewrite List.filter_app. cbn [List.filter]. unfold other_id at 2.
    rewrite Z.eqb_refl. cbn [negb]. apply app_nil_r. }
  exists t, m1. eexists.
  split; [exact He|]. split; [exact Hcol1|]. split; [reflexivity|].
  split; [apply (handleRemove_filters (App.id t) m1 (col ++ [t]) Hcol1)|].
  cbn [react with_trackers App.setTrackers App.trackers]. rewrite Hf.
  split; [reflexivity|]. split; [|split; [|split]].
  - intros Hfresh. rewrite filter_other_id_absent by assumption. now rewrite Hcol.
  - intros Hin Heq. rewrite Hcol in Heq.
    apply (f_equal (@List.length jsval)) in Heq. rewrite !List.length_map in Heq.
    pose proof (filter_length_present (App.id t) col Hin). lia.
  - intros i. now apply handleRemove_filters.
  - intros i Hi. now apply handleRemove_absent with col.
Qed.

Lemma create_then_remove_witness :
  exists (t : App.Tracker) (m1 m2 : Machine App.State),
    create Sample.dayjs_valueOf (str "Ship it") (str "2099-01-01T00:00")
      (mkMachine (with_trackers (List.map App.tracker_obj [Sample.old_tracker])
                    (App.initial Sample.june_2024))
                 (Sample.browser Sample.running_clock None))
    = (Ok tt, m1) /\
    App.trackers (react m1) = List.map App.tracker_obj ([Sample.old_tracker] ++ [t]) /\
    App.id t = Sample.running_clock 1 /\
    App.handleRemove (App.id t) m1 = (Ok tt, m2) /\
    App.trackers (react m2) = List.map App.tracker_obj [Sample.old_tracker].
Proof.
  destruct (create_then_remove Sample.dayjs_valueOf
              (mkMachine (with_trackers (List.map App.tracker_obj [Sample.old_tracker])
                            (App.initial Sample.june_2024))
                         (Sample.browser Sample.running_clock None))
              [Sample.old_tracker] (str "Ship it") (str "2099-01-01T00:00")
              eq_refl ltac:(vm_compute; reflexivity))
    as [t [m1 [m2 [H1 [H2 [H3 [H4 [_ [H6 _]]]]]]]]].
  exists t, m1, m2. split; [exact H1|]. split; [exact H2|].
  split; [exact H3|]. split; [exact H4|].
  rewrite H6.
  - reflexivity.
  - rewrite H3. vm_compute. intros [H | []]. discriminate H.
Defined.

(** Against C7 as stated: the collection holds a tracker whose id is the
    reading the clock gives again; the submission is accepted, and removing
    the new tracker's id empties the collection instead of restoring it. *)
Lemma remove_takes_older_tracker_too :
  let m := mkMachine (with_trackers (List.map App.tracker_obj [Sample.old_tracker])
                        (App.initial Sample.june_2024))
                     (Sample.browser Sample.frozen_clock None) in
  let r1 := create Sample.dayjs_valueOf (str "Ship it") (str "2099-01-01T00:00") m in
  let t := App.mkTracker Sample.june_2024 (str "Ship it") Sample.june_2024
             4070908800000 7 in
  let r2 := App.handleRemove (App.id t) (snd r1) in
  fst r1 = Ok tt /\
  App.trackers (react (snd r1)) = List.map App.tracker_obj [Sample.old_tracker; t] /\
  fst r2 = Ok tt /\
  App.trackers (react (snd r2)) = [] /\
  App.trackers (react (snd r2)) <> App.trackers (react m).
Proof.
  cbv zeta. split; [vm_compute; reflexivity|]. split; [vm_compute; reflexivity|].
  split; [vm_compute; reflexivity|]. split; [vm_compute; reflexivity|].
  vm_compute. discriminate.
Qed.

(** ** Rehydration *)

Lemma get_prop_field (s : jsval) (k : string) :
  s <> JNull -> get_prop s (str k) = Ok (field s k).
Proof. intros Hs. destruct s; try reflexivity. congruence. Qed.

Lemma load_effect_unusable
    (JSON_parse : jsstring -> option jsval) (m : Machine App.State) :
  unusable JSON_parse (storage (world m)) ->
  App.load_effect JSON_parse m = (Ok tt, m).
Proof.
  unfold unusable, App.load_effect, bind, localStorage_getItem.
  destruct (storage (world m)) as [raw|]; [|reflexivity].
  intros [-> | [Hp | Hp]]; [reflexivity | |];
    (destruct raw as [|c raw]; [reflexivity|]); cbn [is_empty];
    unfold try_catch, bind; rewrite Hp; reflexivity.
Qed.

Lemma load_effect_parsed
    (JSON_parse : jsstring -> option jsval) (m : Machine App.State)
    (raw : jsstring) (s : jsval) :
  storage (world m) = Some raw -> raw <> [] ->
  JSON_parse raw = Some s -> s <> JNull ->
  App.load_effect JSON_parse m
  = (Ok tt,
     mkMachine
       (App.setMode (loaded_mode s (App.mode (react m)))
          (with_trackers (loaded_trackers s (App.trackers (react m))) (react m)))
       (world m)).
Proof.
  intros Hst Hraw Hp Hs.
  unfold App.load_effect, bind at 1, localStorage_getItem. rewrite Hst.
  destruct raw as [|c raw]; [congruence|]. cbn [is_empty].
  unfold try_catch, bind, lift, ret, set_state. rewrite Hp.
  rewrite !get_prop_field by assumption.
  unfold loaded_trackers, loaded_mode.
  destruct m as [[g d ts n md] w]. cbn [react world].
  destruct (field s "trackers") as [[| | | |items| |]|];
    destruct (field s "mode") as [v|]; try destruct (truthy (Some v));
    reflexivity.
Qed.

Lemma snapshot_fields (st : App.State) :
  field (App.snapshot st) "trackers" = Some (JArr (App.trackers st)) /\
  field (App.snapshot st) "mode" = Some (App.mode st).
Proof. split; reflexivity. Qed.

(** C8, as the code has it. The load effect itself never throws and
    touches nothing but the collection and the mode. An entry that is
    absent, empty, not JSON, or [null] leaves the state as it is (at
    application start: no tracker, mode [circular]). Of any other parsed
    value the two fields are guarded independently. The mode becomes the
    [mode] field when that is truthy and stays as it was otherwise, whether
    or not the [trackers] field can be used. The collection stays as it was
    when the [trackers] field is not an array, and becomes that array when
    it is an array of tracker objects; an array holding anything else is
    not covered. A store of tracker objects with a truthy mode is read back
    from what the persist effect wrote with the same collection and mode,
    provided [JSON.parse] returns for the text written the snapshot that
    was written. *)
Theorem load_effect_rehydrates :
  (forall (JSON_parse : jsstring -> option jsval) (m : Machine App.State),
     exists ts md,
       App.load_effect JSON_parse m
       = (Ok tt,
          mkMachine (App.mkState (App.goalInput (react m)) (App.deadlineInput (react m))
                       ts (App.now (react m)) md)
                    (world m))) /\
  (forall (JSON_parse : jsstring -> option jsval) (m : Machine App.State),
     unusable JSON_parse (storage (world m)) ->
     App.load_effect JSON_parse m = (Ok tt, m)) /\
  (forall (JSON_parse : jsstring -> option jsval) (m : Machine App.State)
          (raw : jsstring) (s : jsval),
     storage (world m) = Some raw -> raw <> [] ->
     JSON_parse raw = Some s -> s <> JNull ->
     exists m',
       App.load_effect JSON_parse m = (Ok tt, m') /\
       (forall v, field s "mode" = Some v -> truthy (Some v) = true ->
                  App.mode (react m') = v) /\
       (truthy (field s "mode") = false -> App.mode (react m') = App.mode (react m)) /\
       (isArray (field s "trackers") = false ->
        App.trackers (react m') = App.trackers (react m)) /\
       (forall items, field s "trackers" = Some (JArr items) ->
                      forallb is_tracker items = true ->
                      App.trackers (react m') = items)) /\
  (forall (JSON_parse : jsstring -> option jsval) (JSON_stringify : jsval -> jsstring)
          (saved : Machine App.State) (t0 : Z),
     forallb is_tracker (App.trackers (react saved)) = true ->
     truthy (Some (App.mode (react saved))) = true ->
     JSON_stringify (App.snapshot (react saved)) <> [] ->
     JSON_parse (JSON_stringify (App.snapshot (react saved)))
     = Some (App.snapshot (react saved)) ->
     exists w' m',
       App.persist_effect JSON_stringify saved = (Ok tt, mkMachine (react saved) w') /\
       App.load_effect JSON_parse (mkMachine (App.initial t0) w') = (Ok tt, m') /\
       App.trackers (react m') = App.trackers (react saved) /\
       App.mode (react m') = App.mode (react saved)).
Proof.
  split; [|split; [|split]].
  - intros JSON_parse m.
    destruct (storage (world m)) as [raw|] eqn:Hst.
    + destruct raw as [|c raw].
      * exists (App.trackers (react m)), (App.mode (react m)).
        rewrite load_effect_unusable by (rewrite Hst; now left).
        destruct m as [[g d ts n md] w]. reflexivity.
      * destruct (JSON_parse (c :: raw)) as [s|] eqn:Hp.
        -- destruct s;
             try (eexists; eexists;
                  rewrite (load_effect_parsed JSON_parse m (c :: raw) _ Hst
                             ltac:(discriminate) Hp ltac:(discriminate));
                  reflexivity).
           exists (App.trackers (react m)), (App.mode (react m)).
           rewrite load_effect_unusable by (rewrite Hst; right; now right).
           destruct m as [[g d ts n md] w]. reflexivity.
        -- exists (App.trackers (react m)), (App.mode (react m)).
           rewrite load_effect_unusable by (rewrite Hst; right; now left).
           destruct m as [[g d ts n md] w]. reflexivity.
    + exists (App.trackers (react m)), (App.mode (react m)).
      rewrite load_effect_unusable by (now rewrite Hst).
      destruct m as [[g d ts n md] w]. reflexivity.
  - intros JSON_parse m. apply load_effect_unusable.
  - intros JSON_parse m raw s Hst Hraw Hp Hs. eexists.
    split; [apply (load_effect_parsed JSON_parse m raw s Hst Hraw Hp Hs)|].
    cbn [react App.setMode App.mode App.trackers with_trackers App.setTrackers].
    unfold loaded_mode, loaded_trackers.
    split; [|split; [|split]].
    + intros v Hf Ht. now rewrite Hf, Ht.
    + intros Hf. destruct (field s "mode") as [v|]; [|reflexivity]. now rewrite Hf.
    + intros Ha. destruct (field s "trackers") as [[| | | |items| |]|];
        try reflexivity. discriminate Ha.
    + intros items Hf _. now rewrite Hf.
  - intros JSON_parse JSON_stringify saved t0 _ Hmode Hne Hp.
    set (text := JSON_stringify (App.snapshot (react saved))) in *.
    set (w' := mkWorld (clock (world saved)) (clock_reads (world saved))
                 (random (world saved)) (random_draws (world saved))
                 (alerts (world saved)) (Some text)).
    exists w'. eexists. split; [reflexivity|].
    split; [apply (load_effect_parsed JSON_parse (mkMachine (App.initial t0) w') text
                     (App.snapshot (react saved)) eq_refl Hne Hp ltac:(discriminate))|].
    cbn [react App.setMode App.mode App.trackers with_trackers App.setTrackers].
    unfold loaded_trackers, loaded_mode.
    destruct (snapshot_fields (react saved)) as [-> ->].
    rewrite Hmode. split; reflexivity.
Qed.

Lemma load_effect_rehydrates_witness :
  exists w' m',
    App.persist_effect (fun _ => Sample.saved_text)
      (mkMachine Sample.saved_state (Sample.browser Sample.running_clock None))
    = (Ok tt, mkMachine Sample.saved_state w') /\
    App.load_effect (Sample.parse_only Sample.saved_text (App.snapshot Sample.saved_state))
      (mkMachine (App.initial Sample.june_2024) w')
    = (Ok tt, m') /\
    App.trackers (react m') = App.trackers Sample.saved_state /\
    App.mode (react m') = App.mode Sample.saved_state.
Proof.
  apply (proj2 (proj2 (proj2 load_effect_rehydrates))
           (Sample.parse_only Sample.saved_text (App.snapshot Sample.saved_state))
           (fun _ => Sample.saved_text)
           (mkMachine Sample.saved_state (Sample.browser Sample.running_clock None))
           Sample.june_2024).
  - vm_compute. reflexivity.
  - reflexivity.
  - vm_compute. discriminate.
  - vm_compute. reflexivity.
Defined.

(** A mode that JSON does not write back as itself is not read back: the
    mode [Infinity] is written as [null], and the load leaves the default. *)
Example scenario_infinite_mode :
  let r := App.load_effect
             (Sample.parse_only Sample.infinite_text Sample.infinite_read_back)
             (Sample.fresh Sample.running_clock (Some Sample.infinite_text)) in
  truthy (Some (App.mode Sample.infinite_state)) = true /\
  fst r = Ok tt /\
  App.mode (react (snd r)) = JStr (str "circular").
Proof.
  cbv zeta. split; [reflexivity|]. split; vm_compute; reflexivity.
Qed.

(** Against C8 as stated: an entry whose [trackers] field is the number 7
    is not a snapshot of the specified shape, yet the load effect takes its
    mode: the store ends with mode [bar], not with the default. *)
Lemma misshapen_snapshot_sets_mode :
  let r := App.load_effect
             (Sample.parse_only Sample.misshapen_text Sample.misshapen_value)
             (Sample.fresh Sample.running_clock (Some Sample.misshapen_text)) in
  valid_snapshot Sample.misshapen_value = false /\
  fst r = Ok tt /\
  App.trackers (react (snd r)) = [] /\
  App.mode (react (snd r)) = JStr (str "bar") /\
  App.mode (react (snd r)) <> JStr (str "circular").
Proof.
  cbv zeta. split; [vm_compute; reflexivity|]. split; [vm_compute; reflexivity|].
  split; [vm_compute; reflexivity|]. split; [vm_compute; reflexivity|].
  vm_compute. discriminate.
Qed.

(** ** The display mode *)

(** Against C9 as stated: the setter takes a value that is neither
    [circular] nor [bar] and stores it; nothing is rejected. The load effect
    calls it so for an entry with such a mode. *)
Lemma setMode_takes_any_value :
  let zigzag := JStr (str "zigzag") in
  let s := App.initial Sample.june_2024 in
  let r := App.load_effect
             (Sample.parse_only (json_text "{'mode':'zigzag'}")
                (JObj [(str "mode", zigzag)]))
             (Sample.fresh Sample.running_clock (Some (json_text "{'mode':'zigzag'}"))) in
  is_mode zigzag = false /\
  App.mode (App.setMode zigzag s) = zigzag /\
  App.mode (App.setMode zigzag s) <> App.mode s /\
  fst r = Ok tt /\
  App.mode (react (snd r)) = zigzag.
Proof.
  cbv zeta. split; [vm_compute; reflexivity|]. split; [reflexivity|].
  split; [vm_compute; discriminate|]. split; [vm_compute; reflexivity|].
  vm_compute. reflexivity.
Qed.

(** C9, as the code has it. [setMode] is the bare state setter: it stores
    whatever value it is given and changes nothing else; there is no
    validation and no [InvalidMode]. The two buttons of the toggle call it
    with [circular] and with [bar] only; the load effect calls it with any
    truthy [mode] of the stored entry. The card draws the circle for
    [circular] and the bar for every other value. *)
Theorem setMode_stores_value :
  (forall (v : jsval) (s : App.State),
     App.setMode v s
     = App.mkState (App.goalInput s) (App.deadlineInput s) (App.trackers s) (App.now s) v) /\
  (forall m : Machine App.State,
     App.click_circular m = (Ok tt, mkMachine (App.setMode (JStr (str "circular")) (react m)) (world m)) /\
     App.click_bar m = (Ok tt, mkMachine (App.setMode (JStr (str "bar")) (react m)) (world m))) /\
  (forall (JSON_parse : jsstring -> option jsval) (m : Machine App.State)
          (raw : jsstring) (s v : jsval),
     storage (world m) = Some raw -> raw <> [] -> JSON_parse raw = Some s ->
     field s "mode" = Some v -> truthy (Some v) = true ->
     App.mode (react (snd (App.load_effect JSON_parse m))) = v) /\
  (forall v : jsval,
     App.TrackerCard_visual v = App.CircularProgress <-> v = JStr (str "circular")).
Proof.
  split; [reflexivity|]. split; [intros m; split; reflexivity|]. split.
  - intros JSON_parse m raw s v Hst Hraw Hp Hf Ht.
    assert (Hs : s <> JNull) by (intros ->; discriminate Hf).
    rewrite (load_effect_parsed JSON_parse m raw s Hst Hraw Hp Hs).
    cbn [snd react App.setMode App.mode]. unfold loaded_mode. now rewrite Hf, Ht.
  - intros v. unfold App.TrackerCard_visual, strict_eq_str. split.
    + destruct v as [| | |s| | |]; try discriminate.
      destruct (str_eqb s (str "circular")) eqn:E; [|discriminate].
      intros _. f_equal. revert E. generalize (str "circular").
      induction s as [|c s IH]; intros [|c' s']; cbn [str_eqb]; try discriminate.
      * reflexivity.
      * intros E. apply andb_prop in E. destruct E as [E1 E2].
        apply N.eqb_eq in E1. subst. f_equal. now apply IH.
    + intros ->. reflexivity.
Qed.

(** ** The quote of a tracker *)

Lemma floor_of_scaled_draw (r : Q) :
  (0 <= r)%Q -> (r < 1)%Q ->
  0 <= Math_floor (r * inject_Z (Z.of_nat (List.length QUOTES)))%Q <= 9.
Proof.
  intros H0 H1. unfold Math_floor. cbn [List.length QUOTES Z.of_nat Pos.of_succ_nat Pos.succ].
  set (x := (r * inject_Z 10)%Q).
  assert (Hx0 : (inject_Z 0 <= x)%Q).
  { subst x. change (inject_Z 0) with (0 * inject_Z 10)%Q.
    apply Qmult_le_compat_r; [assumption | discriminate]. }
  assert (Hx10 : (x < inject_Z 10)%Q).
  { subst x. change (inject_Z 10) with (1 * inject_Z 10)%Q at 2.
    apply Qmult_lt_compat_r; [reflexivity | assumption]. }
  split.
  - rewrite <- (Qfloor_Z 0). now apply Qfloor_resp_le.
  - assert (Hlt : Qfloor x < 10).
    { rewrite Zlt_Qlt. apply Qle_lt_trans with x; [apply Qfloor_le | assumption]. }
    lia.
Qed.

Lemma quote_at_in_range (i : Z) :
  0 <= i <= 9 -> exists q, quote_at i = Some q.
Proof.
  intros Hi. unfold quote_at.
  destruct (i <? 0) eqn:E; [apply Z.ltb_lt in E; lia|].
  destruct (nth_error QUOTES (Z.to_nat i)) as [q|] eqn:Eq; [now exists q|].
  apply nth_error_None in Eq. cbn [List.length QUOTES] in Eq. lia.
Qed.



(** An entry that is not JSON leaves the application as it starts. *)
Example scenario_garbage_entry :
  let r := App.load_effect (fun _ => None)
             (Sample.fresh Sample.running_clock (Some (str "not json"))) in
  fst r = Ok tt /\
  App.trackers (react (snd r)) = [] /\
  App.mode (react (snd r)) = JStr (str "circular").
Proof. vm_compute. repeat split. Qed.

(** * Further properties of the code *)

(** ** The helpers *)

(** With ordered bounds [clamp] lands between them, leaves a value already
    between them alone, and applying it twice changes nothing more; with the
    bounds the wrong way round it always answers the lower one. *)
Theorem clamp_between (n lo hi : Z) :
  (lo <= hi ->
   lo <= clamp n lo hi <= hi /\
   (lo <= n <= hi -> clamp n lo hi = n) /\
   (n < lo -> clamp n lo hi = lo) /\
   (hi < n -> clamp n lo hi = hi) /\
   clamp (clamp n lo hi) lo hi = clamp n lo hi) /\
  (hi < lo -> clamp n lo hi = lo).
Proof. unfold clamp. lia. Qed.

Lemma percent_is_clamped (s d n : Z) :
  exists q : Q,
    percent (App.TrackerCard s d n) = Fin q /\ (0 <= q <= 100)%Q /\
    (q == inject_Z (elapsedMs (App.TrackerCard s d n))
          / inject_Z (totalMs (App.TrackerCard s d n)) * 100)%Q.
Proof.
  eexists. split; [apply TrackerCard_percent|].
  assert (H0100 : (0 <= 100)%Q) by (unfold Qle; simpl; lia).
  split; [now apply clampQ_range|].
  cbn [App.TrackerCard elapsedMs totalMs].
  set (t := Z.max 1 (d - s)). set (e := clamp (n - s) 0 t).
  assert (He : 0 <= e <= t) by (subst e t; unfold clamp; lia).
  assert (Ht : 0 < t) by (subst t; lia).
  assert (Hlo : (0 <= inject_Z e / inject_Z t * 100)%Q).
  { assert (Hz : (inject_Z 0 / inject_Z t * 100 == 0)%Q)
      by (unfold Qdiv; change (inject_Z 0) with 0%Q; now rewrite !Qmult_0_l).
    rewrite <- Hz. apply Qdiv_le_mono; lia. }
  assert (Hhi : (inject_Z e / inject_Z t * 100 <= 100)%Q).
  { apply Qle_trans with (inject_Z t / inject_Z t * 100)%Q; [apply Qdiv_le_mono; lia|].
    unfold Qdiv. rewrite Qmult_inv_r.
    - rewrite Qmult_1_l. apply Qle_refl.
    - intros Hz. apply (proj1 (inject_Z_injective t 0)) in Hz. lia. }
  unfold SpecWords.clampQ.
  apply Qle_bool_iff in Hlo. apply Qle_bool_iff in Hhi. rewrite Hlo, Hhi.
  reflexivity.
Qed.

(** ** The card *)

(** From the start on, with a deadline after the start, the elapsed and
    the remaining time add up to the whole span. *)
Theorem elapsed_plus_remaining (startTime deadline now : Z) :
  startTime < deadline -> startTime <= now ->
  let p := App.TrackerCard startTime deadline now in
  elapsedMs p + remainingMs p = totalMs p.
Proof.
  intros Hsd Hn. cbn [App.TrackerCard elapsedMs remainingMs totalMs]. unfold clamp. lia.
Qed.

Lemma elapsed_plus_remaining_witness :
  elapsedMs (App.TrackerCard 0 100000 25000) + remainingMs (App.TrackerCard 0 100000 25000)
  = totalMs (App.TrackerCard 0 100000 25000).
Proof. apply (elapsed_plus_remaining 0 100000 25000); lia. Defined.

(** At and before the start nothing has elapsed: the elapsed time is 0 and
    the percentage is 0, whatever the deadline. *)
Theorem nothing_elapsed_before_start (startTime deadline now : Z) :
  now <= startTime ->
  let p := App.TrackerCard startTime deadline now in
  elapsedMs p = 0 /\
  exists q : Q, percent p = Fin q /\ (q == 0)%Q.
Proof.
  intros Hn p.
  assert (He : elapsedMs p = 0).
  { subst p. cbn [App.TrackerCard elapsedMs]. unfold clamp. lia. }
  split; [exact He|].
  destruct (percent_is_clamped startTime deadline now) as [q [Hq [_ Heq]]].
  exists q. split; [exact Hq|]. rewrite Heq. fold p. rewrite He.
  unfold Qdiv. now rewrite !Qmult_0_l.
Qed.

Lemma nothing_elapsed_before_start_witness :
  elapsedMs (App.TrackerCard 5000 100000 4000) = 0.
Proof. apply (nothing_elapsed_before_start 5000 100000 4000). lia. Defined.

(** The card shows its "Time's up" line exactly from the deadline on, but
    its countdown reads all zeros from one second earlier: during the last
    second the blocks show zero while the card is not yet expired. *)
Theorem expiry_and_zero_countdown (startTime deadline now : Z) :
  (App.TrackerCard_expired startTime deadline now = true <-> deadline <= now) /\
  (App.TrackerCard_countdown startTime deadline now = mkDHMS 0 0 0 0
   <-> deadline - now < 1000).
Proof.
  split.
  - unfold App.TrackerCard_expired. cbn [App.TrackerCard remainingMs].
    rewrite Z.eqb_eq. lia.
  - unfold App.TrackerCard_countdown. cbn [App.TrackerCard remainingMs].
    set (r := Z.max 0 (deadline - now)).
    assert (Hr : 0 <= r) by (subst r; lia).
    pose proof (totalSeconds_floor r) as Hts.
    assert (Hts' : totalSeconds r = r / 1000) by (rewrite Hts; f_equal; lia).
    split.
    + intros H. apply (f_equal seconds) in H as Hs. apply (f_equal minutes) in H as Hm.
      apply (f_equal hours) in H as Hh. apply (f_equal days) in H as Hd.
      unfold msToDHMS in Hs, Hm, Hh, Hd. cbn [seconds minutes hours days] in Hs, Hm, Hh, Hd.
      rewrite Hts' in Hs, Hm, Hh, Hd.
      assert (H0 : 0 <= r / 1000) by (apply Z.div_pos; lia).
      rewrite rem_nonneg in Hs, Hm, Hh by lia.
      assert (r / 1000 = 0) by (Z.div_mod_to_equations; lia).
      assert (r < 1000) by (Z.div_mod_to_equations; lia).
      subst r. lia.
    + intros H. assert (Hlt : r < 1000) by (subst r; lia).
      unfold msToDHMS. rewrite Hts'.
      assert (Hz : r / 1000 = 0) by (apply Z.div_small; lia).
      rewrite Hz. reflexivity.
Qed.

(** The seconds a countdown stands for. *)
Lemma countdown_total (ms : Z) :
  days (msToDHMS ms) * 86400 + hours (msToDHMS ms) * 3600
  + minutes (msToDHMS ms) * 60 + seconds (msToDHMS ms)
  = Z.max 0 ms / 1000.
Proof.
  unfold msToDHMS. cbn [days hours minutes seconds].
  pose proof (totalSeconds_nonneg ms) as H0.
  rewrite !rem_nonneg by lia. rewrite <- totalSeconds_floor.
  Z.div_mod_to_equations. lia.
Qed.

(** The countdown of a card never goes up as the clock advances: at a later
    instant the days, hours, minutes and seconds shown stand for no more
    seconds than at an earlier one. *)
Theorem countdown_never_rises (startTime deadline now1 now2 : Z) :
  now1 <= now2 ->
  let c1 := App.TrackerCard_countdown startTime deadline now1 in
  let c2 := App.TrackerCard_countdown startTime deadline now2 in
  days c2 * 86400 + hours c2 * 3600 + minutes c2 * 60 + seconds c2
  <= days c1 * 86400 + hours c1 * 3600 + minutes c1 * 60 + seconds c1.
Proof.
  intros H12. unfold App.TrackerCard_countdown. cbn [App.TrackerCard remainingMs].
  cbv zeta. rewrite !countdown_total.
  apply Z.div_le_mono; lia.
Qed.

Lemma countdown_never_rises_witness :
  let c1 := App.TrackerCard_countdown 0 100000 25000 in
  let c2 := App.TrackerCard_countdown 0 100000 26000 in
  days c2 * 86400 + hours c2 * 3600 + minutes c2 * 60 + seconds c2
  <= days c1 * 86400 + hours c1 * 3600 + minutes c1 * 60 + seconds c1.
Proof. apply (countdown_never_rises 0 100000 25000 26000). lia. Defined.

(** A tracker whose deadline is not after its start (the clock can pass the
    deadline between the comparison and the reading of [startTime]) has a
    span of one millisecond: the percentage is 0 up to the start and 100
    after it, and nothing remains from the start on. *)
Theorem degenerate_span (startTime deadline now : Z) :
  deadline <= startTime ->
  let p := App.TrackerCard startTime deadline now in
  totalMs p = 1 /\
  (startTime <= now -> remainingMs p = 0) /\
  exists q : Q,
    percent p = Fin q /\
    (now <= startTime -> (q == 0)%Q) /\
    (startTime < now -> (q == 100)%Q).
Proof.
  intros Hds p.
  assert (Ht : totalMs p = 1) by (subst p; cbn [App.TrackerCard totalMs]; lia).
  split; [exact Ht|]. split.
  - intros Hn. subst p. cbn [App.TrackerCard remainingMs]. lia.
  - destruct (percent_is_clamped startTime deadline now) as [q [Hq [_ Heq]]].
    exists q. split; [exact Hq|]. fold p in Heq. rewrite Ht in Heq. split.
    + intros Hn. rewrite Heq.
      replace (elapsedMs p) with 0
        by (subst p; cbn [App.TrackerCard elapsedMs]; unfold clamp; lia).
      reflexivity.
    + intros Hn. rewrite Heq.
      replace (elapsedMs p) with 1
        by (subst p; cbn [App.TrackerCard elapsedMs]; unfold clamp; lia).
      reflexivity.
Qed.

Lemma degenerate_span_witness :
  totalMs (App.TrackerCard 7000 6000 7001) = 1.
Proof. apply (degenerate_span 7000 6000 7001). lia. Defined.

(** ** What the blocks print *)

Import View.

Lemma digits_fuel (f1 : nat) :
  forall (f2 : nat) (n : Z),
    0 <= n -> (Z.to_nat n < f1)%nat -> (Z.to_nat n < f2)%nat ->
    digits f1 n = digits f2 n.
Proof.
  induction f1 as [|f1 IH]; intros f2 n Hn H1 H2; [lia|].
  destruct f2 as [|f2]; [lia|]. cbn [digits].
  destruct (n <? 10) eqn:E; [reflexivity|]. apply Z.ltb_ge in E.
  f_equal. assert (Hq : 0 <= n / 10 < n) by (Z.div_mod_to_equations; lia).
  apply IH; lia.
Qed.

Lemma toString_step (n : Z) :
  0 <= n ->
  toString n = if n <? 10 then [digit n] else toString (n / 10) ++ [digit (n mod 10)].
Proof.
  intros Hn. unfold toString at 1. cbn [digits].
  destruct (n <? 10) eqn:E; [reflexivity|]. apply Z.ltb_ge in E.
  f_equal. assert (Hq : 0 <= n / 10 < n) by (Z.div_mod_to_equations; lia).
  apply digits_fuel; lia.
Qed.

Lemma value_of_snoc (s : jsstring) (c : N) :
  value_of (s ++ [c]) = value_of s * 10 + (Z.of_N c - 48).
Proof. unfold value_of. now rewrite fold_left_app. Qed.

Lemma digit_value (d : Z) : 0 <= d <= 9 -> Z.of_N (digit d) - 48 = d.
Proof. intros Hd. unfold digit. rewrite Z2N.id; lia. Qed.

Lemma value_of_toString (n : Z) : 0 <= n -> value_of (toString n) = n.
Proof.
  intros Hn. remember (Z.to_nat n) as k eqn:Hk.
  revert n Hn Hk. induction k as [k IH] using lt_wf_ind. intros n Hn Hk.
  rewrite toString_step by assumption.
  destruct (n <? 10) eqn:E.
  - apply Z.ltb_lt in E. unfold value_of. cbn [fold_left].
    rewrite digit_value; lia.
  - apply Z.ltb_ge in E. rewrite value_of_snoc.
    assert (Hq : 0 <= n / 10 < n) by (Z.div_mod_to_equations; lia).
    rewrite (IH (Z.to_nat (n / 10))) by lia.
    rewrite digit_value by (Z.div_mod_to_equations; lia).
    Z.div_mod_to_equations. lia.
Qed.

Lemma length_toString (n : Z) :
  0 <= n ->
  (n <= 9 -> List.length (toString n) = 1%nat) /\
  (10 <= n <= 99 -> List.length (toString n) = 2%nat) /\
  (100 <= n -> (3 <= List.length (toString n))%nat).
Proof.
  intros Hn.
  assert (H1 : forall a, 0 <= a <= 9 -> List.length (toString a) = 1%nat).
  { intros a Ha. rewrite toString_step by lia.
    destruct (a <? 10) eqn:E; [reflexivity | apply Z.ltb_ge in E; lia]. }
  assert (HS : forall a, 10 <= a ->
             List.length (toString a) = Datatypes.S (List.length (toString (a / 10)))).
  { intros a Ha. rewrite toString_step by lia.
    destruct (a <? 10) eqn:E; [apply Z.ltb_lt in E; lia|].
    rewrite length_app. cbn [List.length]. lia. }
  assert (H2 : forall a, 10 <= a <= 99 -> List.length (toString a) = 2%nat).
  { intros a Ha. rewrite HS by lia. rewrite H1; [reflexivity|].
    Z.div_mod_to_equations. lia. }
  split; [intros; apply H1; lia|]. split; [exact (H2 n)|].
  intros H100. rewrite HS by lia.
  assert (Hq : 10 <= n / 10) by (Z.div_mod_to_equations; lia).
  rewrite HS by lia.
  assert (Hpos : (1 <= List.length (toString (n / 10 / 10)))%nat).
  { rewrite toString_step by (Z.div_mod_to_equations; lia).
    destruct (n / 10 / 10 <? 10); [cbn [List.length]; lia|].
    rewrite length_app. cbn [List.length]. lia. }
  lia.
Qed.

Lemma value_of_zeros (k : nat) (s : jsstring) :
  value_of (repeat 48%N k ++ s) = value_of s.
Proof.
  unfold value_of. rewrite fold_left_app. f_equal.
  induction k as [|k IH]; [reflexivity|]. cbn [repeat fold_left]. exact IH.
Qed.

Lemma pad2_value (n : Z) : 0 <= n -> value_of (pad2 n) = n.
Proof.
  intros Hn. unfold pad2, padStart. rewrite value_of_zeros. now apply value_of_toString.
Qed.

Lemma pad2_length (n : Z) : 0 <= n <= 99 -> List.length (pad2 n) = 2%nat.
Proof.
  intros Hn. destruct (length_toString n ltac:(lia)) as [L1 [L2 _]].
  unfold pad2, padStart. rewrite length_app, repeat_length.
  destruct (Z_le_gt_dec n 9) as [H9 | H9]; [rewrite (L1 H9) | rewrite L2 by lia];
    reflexivity.
Qed.

(** For an integer [n >= 0], [pad2] prints [n] in decimal with a leading
    zero when it has one digit: two characters up to 99, the unpadded
    digits from 100 on, and in every case a text that reads back as [n]. *)
Theorem pad2_two_digits (n : Z) :
  0 <= n ->
  value_of (pad2 n) = n /\
  (n <= 9 -> pad2 n = [48%N; digit n]) /\
  (n <= 99 -> List.length (pad2 n) = 2%nat) /\
  (100 <= n -> pad2 n = toString n) /\
  (2 <= List.length (pad2 n))%nat.
Proof.
  intros Hn. destruct (length_toString n Hn) as [L1 [L2 L3]].
  split; [now apply pad2_value|].
  split.
  { intros H9. unfold pad2, padStart. rewrite (L1 H9). cbn [Nat.sub repeat app].
    rewrite toString_step by lia.
    destruct (n <? 10) eqn:E; [reflexivity | apply Z.ltb_ge in E; lia]. }
  split; [intros H99; apply pad2_length; lia|].
  split.
  { intros H100. specialize (L3 H100). unfold pad2, padStart.
    replace (2 - List.length (toString n))%nat with 0%nat by lia. reflexivity. }
  unfold pad2, padStart. rewrite length_app, repeat_length. lia.
Qed.

Lemma pad2_two_digits_witness :
  value_of (pad2 7) = 7 /\ pad2 7 = str "07" /\ pad2 59 = str "59".
Proof.
  split; [apply (pad2_two_digits 7); lia|].
  split; [apply (proj1 (proj2 (pad2_two_digits 7 ltac:(lia)))); lia | reflexivity].
Defined.

Lemma msToDHMS_ranges (ms : Z) :
  0 <= days (msToDHMS ms) /\ 0 <= hours (msToDHMS ms) <= 23 /\
  0 <= minutes (msToDHMS ms) <= 59 /\ 0 <= seconds (msToDHMS ms) <= 59.
Proof.
  unfold msToDHMS. cbn [days hours minutes seconds].
  pose proof (totalSeconds_nonneg ms) as H0.
  rewrite !rem_nonneg by lia.
  repeat split; Z.div_mod_to_equations; lia.
Qed.

(** Whatever the milliseconds, the four blocks of a card read back as the
    days, hours, minutes and seconds of [msToDHMS], and the hours, minutes
    and seconds always take exactly two characters. *)
Theorem TimeBlocks_show_the_parts (ms : Z) :
  let p := msToDHMS ms in
  List.map value_of (TimeBlocks p) = [days p; hours p; minutes p; seconds p] /\
  List.map (@List.length N) (List.tl (TimeBlocks p)) = [2; 2; 2]%nat.
Proof.
  intros p. destruct (msToDHMS_ranges ms) as [Hd [Hh [Hm Hs]]]. fold p in Hd, Hh, Hm, Hs.
  unfold TimeBlocks. cbn [List.map List.tl].
  rewrite !pad2_value, !pad2_length by lia.
  now rewrite value_of_toString by lia.
Qed.

(** ** What the progress visuals show *)

Lemma clampQ_inside (y lo hi : Q) :
  (lo <= y <= hi)%Q -> SpecWords.clampQ y lo hi = y.
Proof.
  intros [Hlo Hhi]. unfold SpecWords.clampQ.
  apply Qle_bool_iff in Hlo. apply Qle_bool_iff in Hhi. now rewrite Hlo, Hhi.
Qed.

(** The bar clamps the percentage once more, which changes nothing on
    what a card passes; on any finite number the width is within 0 and 100,
    an infinity becomes the nearer bound, and [NaN] stays [NaN]. *)
Theorem GradientBar_width_of_card :
  (forall s d n : Z,
     GradientBar_width (percent (App.TrackerCard s d n)) = percent (App.TrackerCard s d n)) /\
  (forall q : Q, exists w : Q, GradientBar_width (Fin q) = Fin w /\ (0 <= w <= 100)%Q) /\
  GradientBar_width NaN = NaN /\
  GradientBar_width PosInf = of_int 100 /\
  GradientBar_width NegInf = of_int 0.
Proof.
  assert (H0100 : (0 <= 100)%Q) by (unfold Qle; simpl; lia).
  split; [|split; [|repeat split]].
  - intros s d n. rewrite TrackerCard_percent. unfold GradientBar_width, of_int.
    rewrite clampN_clampQ by exact H0100. f_equal.
    apply clampQ_inside. now apply clampQ_range.
  - intros q. unfold GradientBar_width, of_int.
    rewrite clampN_clampQ by exact H0100. eexists. split; [reflexivity|].
    now apply clampQ_range.
Qed.

Lemma percent_monotone (s d n1 n2 : Z) :
  n1 <= n2 ->
  exists p1 p2 : Q,
    percent (App.TrackerCard s d n1) = Fin p1 /\
    percent (App.TrackerCard s d n2) = Fin p2 /\
    (0 <= p1)%Q /\ (p1 <= p2)%Q /\ (p2 <= 100)%Q.
Proof.
  intros H12. assert (H0100 : (0 <= 100)%Q) by (unfold Qle; simpl; lia).
  do 2 eexists. rewrite !TrackerCard_percent.
  split; [reflexivity|]. split; [reflexivity|].
  split; [now apply clampQ_range|]. split; [|now apply clampQ_range].
  apply clampQ_mono; [assumption|].
  apply Qdiv_le_mono; [lia|]. unfold clamp. lia.
Qed.

Lemma round_of_equal (p : Q) (k : Z) :
  (p == inject_Z k)%Q -> Qfloor (p + (1 # 2)) = k.
Proof.
  intros Hp. rewrite (Qfloor_comp _ _ (Qplus_comp _ _ Hp _ _ (Qeq_refl (1 # 2)))).
  apply Z.le_antisymm.
  - assert (Hlt : Qfloor (inject_Z k + (1 # 2)) < k + 1); [|lia].
    rewrite Zlt_Qlt. apply Qle_lt_trans with (inject_Z k + (1 # 2))%Q; [apply Qfloor_le|].
    rewrite inject_Z_plus. apply Qplus_lt_r. reflexivity.
  - rewrite <- (Qfloor_Z k) at 1. apply Qfloor_resp_le.
    rewrite <- (Qplus_0_r (inject_Z k)) at 1. apply Qplus_le_r. discriminate.
Qed.

(** The number printed in the ring and in the footer of a card is a whole
    number from 0 to 100 that does not go down as the clock advances; it is
    0 up to the start and, for a deadline after the start, 100 from the
    deadline on. (Which whole number is printed when the percentage lies
    within a rounding error of a half is not stated.) *)
Theorem label_whole_bounded_monotone (s d n1 n2 : Z) :
  n1 <= n2 ->
  exists k1 k2 : Z,
    CircularProgress_label (percent (App.TrackerCard s d n1)) = of_int k1 /\
    CircularProgress_label (percent (App.TrackerCard s d n2)) = of_int k2 /\
    0 <= k1 /\ k1 <= k2 /\ k2 <= 100 /\
    (n1 <= s -> k1 = 0) /\
    (s < d -> d <= n2 -> k2 = 100).
Proof.
  intros H12.
  destruct (percent_monotone s d n1 n2 H12) as [p1 [p2 [Hp1 [Hp2 [Hlo [Hle Hhi]]]]]].
  exists (Qfloor (p1 + (1 # 2))), (Qfloor (p2 + (1 # 2))).
  rewrite Hp1, Hp2. split; [reflexivity|]. split; [reflexivity|].
  split; [|split; [|split; [|split]]].
  - rewrite <- (Qfloor_Z 0). apply Qfloor_resp_le.
    apply Qle_trans with p1; [exact Hlo|].
    rewrite <- (Qplus_0_r p1) at 1. apply Qplus_le_r. discriminate.
  - apply Qfloor_resp_le. now apply Qplus_le_l.
  - assert (Hlt : Qfloor (p2 + (1 # 2)) < 101); [|lia].
    rewrite Zlt_Qlt. apply Qle_lt_trans with (p2 + (1 # 2))%Q; [apply Qfloor_le|].
    apply Qle_lt_trans with (100 + (1 # 2))%Q; [now apply Qplus_le_l | reflexivity].
  - intros Hn. apply round_of_equal.
    destruct (percent_is_clamped s d n1) as [q [Hq [_ Heq]]].
    rewrite Hp1 in Hq. injection Hq as <-. rewrite Heq.
    replace (elapsedMs (App.TrackerCard s d n1)) with 0
      by (cbn [App.TrackerCard elapsedMs]; unfold clamp; lia).
    unfold Qdiv. change (inject_Z 0) with 0%Q. now rewrite !Qmult_0_l.
  - intros Hsd Hn. apply round_of_equal.
    destruct (percent_is_clamped s d n2) as [q [Hq [_ Heq]]].
    rewrite Hp2 in Hq. injection Hq as <-. rewrite Heq.
    replace (elapsedMs (App.TrackerCard s d n2)) with (totalMs (App.TrackerCard s d n2))
      by (cbn [App.TrackerCard elapsedMs totalMs]; unfold clamp; lia).
    unfold Qdiv. rewrite Qmult_inv_r; [apply Qmult_1_l|].
    intros Hz. apply (proj1 (inject_Z_injective _ 0)) in Hz.
    cbn [App.TrackerCard totalMs] in Hz. lia.
Qed.

Lemma label_whole_bounded_monotone_witness :
  exists k1 k2 : Z,
    CircularProgress_label (percent (App.TrackerCard 0 40000 23000)) = of_int k1 /\
    CircularProgress_label (percent (App.TrackerCard 0 40000 40000)) = of_int k2 /\
    0 <= k1 /\ k1 <= k2 /\ k2 = 100.
Proof.
  destruct (label_whole_bounded_monotone 0 40000 23000 40000 ltac:(lia))
    as [k1 [k2 [H1 [H2 [H3 [H4 [_ [_ H7]]]]]]]].
  exists k1, k2. split; [exact H1|]. split; [exact H2|].
  split; [exact H3|]. split; [exact H4|]. apply H7; lia.
Defined.

(** ** Submissions *)

Lemma handleAddTracker_rejected_run
    (dayjs_valueOf : jsstring -> option Z) (m : Machine App.State) (r : Rejection) :
  validate dayjs_valueOf (App.goalInput (react m)) (App.deadlineInput (react m))
    (next_now (world m)) = Some r ->
  App.handleAddTracker dayjs_valueOf m
  = (Ok tt, mkMachine (react m) (rejected r (world m))).
Proof.
  destruct m as [st w]. cbn [react world].
  unfold validate, parse_deadline, App.handleAddTracker, bind, render. cbn [react world].
  destruct (is_empty (trim (App.goalInput st))); [intros [= <-]; reflexivity|].
  destruct (is_empty (App.deadlineInput st));
    [intros [= <-]; now destruct (dayjs_valueOf (App.deadlineInput st))|].
  destruct (dayjs_valueOf (App.deadlineInput st)) as [d|]; [|intros [= <-]; reflexivity].
  unfold Date_now, next_now. cbn [react world].
  destruct (d <=? clock w (clock_reads w)); [|discriminate].
  intros [= <-]. reflexivity.
Qed.

(** [handleAddTracker] never throws and never touches the mode, the [now]
    cell or the stored entry. It adds a tracker exactly when the three
    validations pass: then the collection grows by one at the end, both
    inputs are cleared and nothing is alerted; otherwise the collection and
    the inputs stay and exactly one alert is raised. *)
Theorem handleAddTracker_adds_exactly_when_valid
    (dayjs_valueOf : jsstring -> option Z) (m : Machine App.State) :
  let v := validate dayjs_valueOf (App.goalInput (react m)) (App.deadlineInput (react m))
             (next_now (world m)) in
  let r := App.handleAddTracker dayjs_valueOf m in
  fst r = Ok tt /\
  App.mode (react (snd r)) = App.mode (react m) /\
  App.now (react (snd r)) = App.now (react m) /\
  storage (world (snd r)) = storage (world m) /\
  (v = None ->
   (exists tr, App.trackers (react (snd r)) = App.trackers (react m) ++ [tr]) /\
   App.goalInput (react (snd r)) = str "" /\
   App.deadlineInput (react (snd r)) = str "" /\
   alerts (world (snd r)) = alerts (world m)) /\
  (v <> None ->
   react (snd r) = react m /\
   exists msg, alerts (world (snd r)) = alerts (world m) ++ [msg]) /\
  (App.trackers (react (snd r)) = App.trackers (react m) <-> v <> None).
Proof.
  intros v r. subst r.
  destruct v as [rej|] eqn:Hv; subst v.
  - rewrite (handleAddTracker_rejected_run dayjs_valueOf m rej Hv).
    cbn [fst snd react world].
    assert (Hst : storage (rejected rej (world m)) = storage (world m)) by now destruct rej.
    assert (Hal : alerts (rejected rej (world m)) = alerts (world m) ++ [message rej])
      by now destruct rej.
    split; [reflexivity|]. split; [reflexivity|]. split; [reflexivity|].
    split; [exact Hst|]. split; [discriminate|].
    split; [intros _; split; [reflexivity | exists (message rej); exact Hal]|].
    split; [intros _; discriminate | intros _; reflexivity].
  - destruct (handleAddTracker_accepts dayjs_valueOf m Hv) as [d [_ [_ He]]].
    rewrite He. cbn [fst snd react world App.mode App.now App.trackers
                     App.goalInput App.deadlineInput accepted storage alerts].
    split; [reflexivity|]. split; [reflexivity|]. split; [reflexivity|].
    split; [reflexivity|].
    split; [intros _; split; [eexists; reflexivity | repeat split; reflexivity]|].
    split; [intros H; exfalso; apply H; reflexivity|].
    split; [|intros H; exfalso; apply H; reflexivity].
    intros H. exfalso.
    apply (f_equal (@List.length jsval)) in H. rewrite length_app in H.
    cbn [List.length] in H. lia.
Qed.

(** *** The goal of a created tracker *)

Lemma trimStart_head (s : jsstring) (c : N) :
  hd_error (trimStart s) = Some c -> is_ws c = false.
Proof.
  induction s as [|a s IH]; cbn [trimStart]; [discriminate|].
  destruct (is_ws a) eqn:E; [exact IH|]. cbn [hd_error]. now intros [= <-].
Qed.

Lemma trimStart_suffix (s : jsstring) :
  exists w, s = w ++ trimStart s.
Proof.
  induction s as [|a s [w IH]]; [now exists []|]. cbn [trimStart].
  destruct (is_ws a).
  - exists (a :: w). cbn [app]. now f_equal.
  - now exists [].
Qed.

Lemma trimStart_fixed (s : jsstring) :
  (forall c, hd_error s = Some c -> is_ws c = false) -> trimStart s = s.
Proof.
  destruct s as [|a s]; [reflexivity|]. intros H. cbn [trimStart].
  now rewrite (H a eq_refl).
Qed.

Lemma trimEnd_last (s : jsstring) (c : N) :
  hd_error (rev (trimEnd s)) = Some c -> is_ws c = false.
Proof. unfold trimEnd. rewrite rev_involutive. apply trimStart_head. Qed.

Lemma trimEnd_head (s : jsstring) (c : N) :
  (forall a, hd_error s = Some a -> is_ws a = false) ->
  hd_error (trimEnd s) = Some c -> is_ws c = false.
Proof.
  intros Hs Hc. unfold trimEnd in Hc.
  destruct (trimStart_suffix (rev s)) as [w Hw].
  apply (f_equal (@rev N)) in Hw. rewrite rev_involutive, rev_app_distr in Hw.
  destruct (rev (trimStart (rev s))) as [|a u]; [discriminate|].
  cbn [hd_error] in Hc. injection Hc as <-.
  apply Hs. rewrite Hw. reflexivity.
Qed.

Lemma trim_ends (s : jsstring) :
  (forall c, hd_error (trim s) = Some c -> is_ws c = false) /\
  (forall c, hd_error (rev (trim s)) = Some c -> is_ws c = false).
Proof.
  unfold trim. split.
  - intros c. apply trimEnd_head. apply trimStart_head.
  - intros c. apply trimEnd_last.
Qed.

Lemma trim_fixed (s : jsstring) :
  (forall c, hd_error s = Some c -> is_ws c = false) ->
  (forall c, hd_error (rev s) = Some c -> is_ws c = false) ->
  trim s = s.
Proof.
  intros Hh Hl. unfold trim. rewrite (trimStart_fixed s Hh).
  unfold trimEnd. rewrite (trimStart_fixed (rev s) Hl). apply rev_involutive.
Qed.

(** The tracker an accepted submission appends carries the goal as typed,
    trimmed: it is not empty, it neither starts nor ends with white space
    (trimming it again changes nothing), and the deadline is the parsed one,
    later than the clock reading it was compared with. *)
Theorem created_tracker_goal_is_trimmed
    (dayjs_valueOf : jsstring -> option Z) (m : Machine App.State)
    (goalText deadlineText : jsstring) :
  validate dayjs_valueOf goalText deadlineText (next_now (world m)) = None ->
  exists (t : App.Tracker) (m1 : Machine App.State),
    create dayjs_valueOf goalText deadlineText m = (Ok tt, m1) /\
    App.trackers (react m1) = App.trackers (react m) ++ [App.tracker_obj t] /\
    App.goal t = trim goalText /\
    App.goal t <> [] /\
    (forall c, hd_error (App.goal t) = Some c -> is_ws c = false) /\
    (forall c, hd_error (rev (App.goal t)) = Some c -> is_ws c = false) /\
    trim (App.goal t) = App.goal t /\
    dayjs_valueOf deadlineText = Some (App.deadline t) /\
    next_now (world m) < App.deadline t.
Proof.
  intros Hv.
  destruct (create_accepts dayjs_valueOf m goalText deadlineText Hv) as [d [Hd [Ht He]]].
  apply validate_accepts in Hv. destruct Hv as [Hg _].
  destruct (trim_ends goalText) as [Hh Hl].
  exists (new_tracker goalText d (world m)). eexists.
  split; [exact He|]. cbn [react App.trackers new_tracker App.goal App.deadline].
  split; [reflexivity|]. split; [reflexivity|]. split; [exact Hg|].
  split; [exact Hh|]. split; [exact Hl|].
  split; [now apply trim_fixed|]. split; assumption.
Qed.

Lemma created_tracker_goal_is_trimmed_witness :
  exists (t : App.Tracker) (m1 : Machine App.State),
    create Sample.dayjs_valueOf (str "  Ship it ") (str "2099-01-01T00:00")
      (Sample.fresh Sample.running_clock None) = (Ok tt, m1) /\
    App.goal t = trim (str "  Ship it ") /\
    App.goal t <> [].
Proof.
  destruct (created_tracker_goal_is_trimmed Sample.dayjs_valueOf
              (Sample.fresh Sample.running_clock None)
              (str "  Ship it ") (str "2099-01-01T00:00")
              ltac:(vm_compute; reflexivity))
    as [t [m1 [H1 [_ [H3 [H4 _]]]]]].
  exists t, m1. split; [exact H1|]. split; [exact H3 | exact H4].
Defined.

(** ** Removal, again *)

Lemma filter_other_id_comm (i j : Z) (col : list App.Tracker) :
  List.filter (other_id i) (List.filter (other_id j) col)
  = List.filter (other_id j) (List.filter (other_id i) col).
Proof.
  induction col as [|t col IH]; [reflexivity|]. cbn [List.filter].
  destruct (other_id j t) eqn:Ej; destruct (other_id i t) eqn:Ei; cbn [List.filter];
    rewrite ?Ej, ?Ei, IH; reflexivity.
Qed.

Lemma filter_other_id_gone (i : Z) (col : list App.Tracker) :
  ~ In i (List.map App.id (List.filter (other_id i) col)).
Proof.
  intros Hin. apply in_map_iff in Hin. destruct Hin as [t [Hid Ht]].
  apply filter_In in Ht. destruct Ht as [_ Ht]. unfold other_id in Ht.
  rewrite Hid, Z.eqb_refl in Ht. discriminate.
Qed.

(** On a collection of trackers the application built, [handleRemove]
    ends normally and leaves the inputs, the mode, [now] and the browser
    alone; afterwards no tracker has the removed id, every tracker with
    another id is still there, and removing the same id again changes
    nothing. *)
Theorem handleRemove_removes_all_with_id
    (i : Z) (m : Machine App.State) (col : list App.Tracker) :
  App.trackers (react m) = List.map App.tracker_obj col ->
  exists (col1 : list App.Tracker) (m1 : Machine App.State),
    App.handleRemove i m = (Ok tt, m1) /\
    App.trackers (react m1) = List.map App.tracker_obj col1 /\
    ~ In i (List.map App.id col1) /\
    (forall t, In t col1 <-> In t col /\ App.id t <> i) /\
    (List.length col1 <= List.length col)%nat /\
    App.goalInput (react m1) = App.goalInput (react m) /\
    App.deadlineInput (react m1) = App.deadlineInput (react m) /\
    App.mode (react m1) = App.mode (react m) /\
    App.now (react m1) = App.now (react m) /\
    world m1 = world m /\
    App.handleRemove i m1 = (Ok tt, m1).
Proof.
  intros Hcol. exists (List.filter (other_id i) col). eexists.
  split; [apply (handleRemove_filters i m col Hcol)|].
  cbn [react world with_trackers App.setTrackers App.trackers App.goalInput
       App.deadlineInput App.mode App.now].
  split; [reflexivity|]. split; [apply filter_other_id_gone|].
  split.
  { intros t. rewrite filter_In. unfold other_id.
    destruct (App.id t =? i) eqn:E; [apply Z.eqb_eq in E | apply Z.eqb_neq in E];
      cbn [negb]; intuition congruence. }
  split; [apply List.filter_length_le|].
  do 5 (split; [reflexivity|]).
  apply handleRemove_absent with (List.filter (other_id i) col); [reflexivity|].
  apply filter_other_id_gone.
Qed.

Lemma handleRemove_removes_all_with_id_witness :
  exists (col1 : list App.Tracker) (m1 : Machine App.State),
    App.handleRemove Sample.june_2024
      (mkMachine (with_trackers (List.map App.tracker_obj [Sample.old_tracker])
                    (App.initial Sample.june_2024))
                 (Sample.browser Sample.running_clock None))
    = (Ok tt, m1) /\
    App.trackers (react m1) = List.map App.tracker_obj col1 /\
    ~ In Sample.june_2024 (List.map App.id col1).
Proof.
  destruct (handleRemove_removes_all_with_id Sample.june_2024
              (mkMachine (with_trackers (List.map App.tracker_obj [Sample.old_tracker])
                            (App.initial Sample.june_2024))
                         (Sample.browser Sample.running_clock None))
              [Sample.old_tracker] eq_refl)
    as [col1 [m1 [H1 [H2 [H3 _]]]]].
  exists col1, m1. split; [exact H1|]. split; [exact H2 | exact H3].
Defined.

(** Two removals can be done in either order: the resulting state is the
    same. *)
Theorem handleRemove_commutes
    (i j : Z) (m : Machine App.State) (col : list App.Tracker) :
  App.trackers (react m) = List.map App.tracker_obj col ->
  App.handleRemove j (snd (App.handleRemove i m))
  = App.handleRemove i (snd (App.handleRemove j m)).
Proof.
  intros Hcol.
  rewrite (handleRemove_filters i m col Hcol), (handleRemove_filters j m col Hcol).
  cbn [snd].
  rewrite (handleRemove_filters j
             (mkMachine (with_trackers (List.map App.tracker_obj (List.filter (other_id i) col))
                           (react m)) (world m))
             (List.filter (other_id i) col) eq_refl).
  rewrite (handleRemove_filters i
             (mkMachine (with_trackers (List.map App.tracker_obj (List.filter (other_id j) col))
                           (react m)) (world m))
             (List.filter (other_id j) col) eq_refl).
  cbn [react world with_trackers App.setTrackers App.trackers App.goalInput
       App.deadlineInput App.mode App.now].
  now rewrite filter_other_id_comm.
Qed.

Lemma handleRemove_commutes_witness :
  App.handleRemove 5
    (snd (App.handleRemove Sample.june_2024
            (mkMachine (with_trackers (List.map App.tracker_obj [Sample.old_tracker])
                          (App.initial Sample.june_2024))
                       (Sample.browser Sample.running_clock None))))
  = App.handleRemove Sample.june_2024
      (snd (App.handleRemove 5
              (mkMachine (with_trackers (List.map App.tracker_obj [Sample.old_tracker])
                            (App.initial Sample.june_2024))
                         (Sample.browser Sample.running_clock None)))).
Proof.
  apply (handleRemove_commutes Sample.june_2024 5
           (mkMachine (with_trackers (List.map App.tracker_obj [Sample.old_tracker])
                         (App.initial Sample.june_2024))
                      (Sample.browser Sample.running_clock None))
           [Sample.old_tracker]).
  reflexivity.
Defined.

(** ** The ticker and the mode toggle *)

Import Session.

Lemma tick_run (m : Machine App.State) :
  App.tick m
  = (Ok tt,
     mkMachine (App.setNow (next_now (world m)) (react m)) (clock_read (world m))).
Proof. reflexivity. Qed.

(** Any number of ticks ends normally and moves nothing but the [now] cell
    and the count of clock readings: the collection (expired trackers
    included), both inputs, the mode, the alerts and the stored entry stay;
    after at least one tick, [now] is the last reading taken. *)
Theorem ticks_only_move_now (n : nat) (m : Machine App.State) :
  exists m' : Machine App.State,
    ticks n m = (Ok tt, m') /\
    App.trackers (react m') = App.trackers (react m) /\
    App.goalInput (react m') = App.goalInput (react m) /\
    App.deadlineInput (react m') = App.deadlineInput (react m) /\
    App.mode (react m') = App.mode (react m) /\
    alerts (world m') = alerts (world m) /\
    storage (world m') = storage (world m) /\
    clock (world m') = clock (world m) /\
    clock_reads (world m') = (n + clock_reads (world m))%nat /\
    (n = 0%nat -> m' = m) /\
    (n <> 0%nat -> App.now (react m') = clock (world m) (n - 1 + clock_reads (world m))%nat).
Proof.
  revert m. induction n as [|n IH]; intros m.
  - exists m. repeat split; try reflexivity. intros H. now contradiction H.
  - destruct (IH (mkMachine (App.setNow (next_now (world m)) (react m))
                            (clock_read (world m))))
      as [m' [Hr [Ht [Hg [Hd [Hm [Ha [Hs [Hc [Hk [H0 Hn]]]]]]]]]]].
    exists m'. split.
    { cbn [ticks]. unfold bind at 1. rewrite tick_run. exact Hr. }
    cbn [react world App.setNow App.trackers App.goalInput App.deadlineInput App.mode
         clock_read alerts storage clock clock_reads] in *.
    do 7 (split; [assumption|]).
    split; [rewrite Hk; lia|]. split; [discriminate|]. intros _.
    destruct n as [|n'].
    + rewrite (H0 eq_refl). reflexivity.
    + rewrite Hn by discriminate. f_equal. lia.
Qed.

Lemma click_run (b : Button) (m : Machine App.State) :
  click b m
  = (Ok tt,
     mkMachine (App.setMode (JStr (str (match b with Circular => "circular" | Bar => "bar" end)))
                  (react m)) (world m)).
Proof. now destruct b. Qed.

(** Whatever the mode was (a stored entry can leave any value there), any
    clicks on the toggle end normally and touch only the mode, and after
    them the cards show the visual of the button clicked last. *)
Theorem clicks_last_wins (bs : list Button) (m : Machine App.State) :
  exists m' : Machine App.State,
    clicks bs m = (Ok tt, m') /\
    App.trackers (react m') = App.trackers (react m) /\
    App.goalInput (react m') = App.goalInput (react m) /\
    App.deadlineInput (react m') = App.deadlineInput (react m) /\
    App.now (react m') = App.now (react m) /\
    world m' = world m /\
    (bs = [] -> m' = m) /\
    (forall rest b, bs = rest ++ [b] ->
       App.TrackerCard_visual (App.mode (react m')) = button_visual b).
Proof.
  revert m. induction bs as [|a bs IH]; intros m.
  - exists m. repeat split; try reflexivity.
    intros rest b H. now destruct rest.
  - destruct (IH (mkMachine
                    (App.setMode
                       (JStr (str (match a with Circular => "circular" | Bar => "bar" end)))
                       (react m)) (world m)))
      as [m' [Hr [Ht [Hg [Hd [Hn [Hw [H0 Hl]]]]]]]].
    exists m'. split.
    { cbn [clicks]. unfold bind at 1. rewrite click_run. exact Hr. }
    cbn [react world App.setMode App.trackers App.goalInput App.deadlineInput App.now] in *.
    do 5 (split; [assumption|]). split; [discriminate|].
    intros rest b Hb. destruct rest as [|a' rest'].
    + cbn [app] in Hb. injection Hb as -> ->. rewrite (H0 eq_refl).
      cbn [react App.setMode App.mode]. now destruct b.
    + cbn [app] in Hb. injection Hb as _ ->. now apply (Hl rest').
Qed.

(** ** Reset *)

(** [handleReset] ends normally from any state: the collection is empty
    and both inputs are cleared, while the mode, [now] and the browser are
    as before. After it every removal changes nothing, and so does another
    reset. *)
Theorem handleReset_clears (m : Machine App.State) :
  exists m' : Machine App.State,
    App.handleReset m = (Ok tt, m') /\
    App.trackers (react m') = [] /\
    App.goalInput (react m') = str "" /\
    App.deadlineInput (react m') = str "" /\
    App.mode (react m') = App.mode (react m) /\
    App.now (react m') = App.now (react m) /\
    world m' = world m /\
    (forall i : Z, App.handleRemove i m' = (Ok tt, m')) /\
    App.handleReset m' = (Ok tt, m').
Proof.
  eexists. split; [reflexivity|].
  cbn [react world App.setTrackers App.setGoalInput App.setDeadlineInput
       App.trackers App.goalInput App.deadlineInput App.mode App.now].
  do 6 (split; [reflexivity|]). split; [|reflexivity].
  intros i. reflexivity.
Qed.

(** ** Persistence, again *)

Lemma loaded_trackers_twice (s : jsval) (ts : list jsval) :
  loaded_trackers s (loaded_trackers s ts) = loaded_trackers s ts.
Proof.
  unfold loaded_trackers. now destruct (field s "trackers") as [[| | | |items| |]|].
Qed.

Lemma loaded_mode_twice (s md : jsval) :
  loaded_mode s (loaded_mode s md) = loaded_mode s md.
Proof.
  unfold loaded_mode. destruct (field s "mode") as [v|]; [|reflexivity].
  now destruct (truthy (Some v)).
Qed.

(** Running the load effect a second time changes nothing: the state after
    two loads of the same entry is the state after one. *)
Theorem load_effect_twice
    (JSON_parse : jsstring -> option jsval) (m : Machine App.State) :
  App.load_effect JSON_parse (snd (App.load_effect JSON_parse m))
  = (Ok tt, snd (App.load_effect JSON_parse m)).
Proof.
  destruct (storage (world m)) as [raw|] eqn:Hst.
  - destruct raw as [|c raw].
    + assert (Hu : unusable JSON_parse (storage (world m))) by (rewrite Hst; now left).
      rewrite (load_effect_unusable JSON_parse m Hu). cbn [snd].
      apply load_effect_unusable. exact Hu.
    + destruct (JSON_parse (c :: raw)) as [s|] eqn:Hp.
      * assert (Hn : s = JNull \/ s <> JNull) by (destruct s; (now left) || (right; discriminate)).
        destruct Hn as [-> | Hs].
        -- assert (Hu : unusable JSON_parse (storage (world m)))
             by (rewrite Hst; right; now right).
           rewrite (load_effect_unusable JSON_parse m Hu). cbn [snd].
           apply load_effect_unusable. exact Hu.
        -- rewrite (load_effect_parsed JSON_parse m (c :: raw) s Hst ltac:(discriminate) Hp Hs).
           cbn [snd].
           rewrite (load_effect_parsed JSON_parse
                      (mkMachine
                         (App.setMode (loaded_mode s (App.mode (react m)))
                            (with_trackers (loaded_trackers s (App.trackers (react m)))
                               (react m)))
                         (world m))
                      (c :: raw) s Hst ltac:(discriminate) Hp Hs).
           cbn [react world App.setMode with_trackers App.setTrackers App.trackers App.mode
                App.goalInput App.deadlineInput App.now].
           now rewrite loaded_trackers_twice, loaded_mode_twice.
      * assert (Hu : unusable JSON_parse (storage (world m)))
          by (rewrite Hst; right; now left).
        rewrite (load_effect_unusable JSON_parse m Hu). cbn [snd].
        apply load_effect_unusable. exact Hu.
  - assert (Hu : unusable JSON_parse (storage (world m))) by now rewrite Hst.
    rewrite (load_effect_unusable JSON_parse m Hu). cbn [snd].
    apply load_effect_unusable. exact Hu.
Qed.

(** An entry the load effect cannot use (absent, empty, not JSON, [null])
    does not survive: the load leaves the state alone, and the persist
    effect that follows replaces the entry by the text of the snapshot of
    that state; alerts, clock and component state are untouched. *)
Theorem unusable_entry_is_overwritten
    (JSON_parse : jsstring -> option jsval) (JSON_stringify : jsval -> jsstring)
    (m : Machine App.State) :
  unusable JSON_parse (storage (world m)) ->
  exists m' : Machine App.State,
    JS.bind (App.load_effect JSON_parse) (fun _ => App.persist_effect JSON_stringify) m
    = (Ok tt, m') /\
    react m' = react m /\
    storage (world m') = Some (JSON_stringify (App.snapshot (react m))) /\
    alerts (world m') = alerts (world m) /\
    clock_reads (world m') = clock_reads (world m).
Proof.
  intros Hu. eexists. split.
  - unfold bind at 1. rewrite (load_effect_unusable JSON_parse m Hu). reflexivity.
  - repeat split.
Qed.

Lemma unusable_entry_is_overwritten_witness :
  exists m' : Machine App.State,
    JS.bind (App.load_effect (fun _ => None))
      (fun _ => App.persist_effect (fun _ => Sample.saved_text))
      (Sample.fresh Sample.running_clock (Some (str "not json")))
    = (Ok tt, m') /\
    react m' = App.initial Sample.june_2024 /\
    storage (world m') = Some Sample.saved_text.
Proof.
  destruct (unusable_entry_is_overwritten (fun _ => None) (fun _ => Sample.saved_text)
              (Sample.fresh Sample.running_clock (Some (str "not json")))
              ltac:(right; left; reflexivity))
    as [m' [H1 [H2 [H3 _]]]].
  exists m'. split; [exact H1|]. split; [exact H2 | exact H3].
Defined.

(** ** The single-tracker application *)

Lemma handleStart_accepts
    (dayjs_valueOf : jsstring -> option Z) (m : Machine Single.State) :
  validate dayjs_valueOf (Single.goal (react m)) (Single.deadlineInput (react m))
    (next_now (world m)) = None ->
  exists d : Z,
    dayjs_valueOf (Single.deadlineInput (react m)) = Some d /\
    next_now (world m) < d /\
    Single.handleStart dayjs_valueOf m
    = (Ok tt,
       mkMachine
         (Single.mkState (Single.goal (react m)) (Single.deadlineInput (react m))
            (Some (later_now 1 (world m))) (Some d) (Single.now (react m))
            (Single.mode (react m))
            (Math_floor (next_random (world m) * inject_Z (Z.of_nat (List.length QUOTES)))%Q))
         (mkWorld (clock (world m)) (2 + clock_reads (world m))%nat (random (world m))
            (Datatypes.S (random_draws (world m))) (alerts (world m)) (storage (world m)))).
Proof.
  intros Hv. apply validate_accepts in Hv. destruct Hv as [Hg [d [Hdl [Hd Ht]]]].
  exists d. split; [assumption|]. split; [assumption|].
  destruct m as [st w]. cbn [react world] in *.
  unfold Single.handleStart, bind, render. cbn [react world].
  destruct (trim (Single.goal st)) as [|c g'] eqn:Eg; [congruence|]. cbn [is_empty].
  rewrite Hd. destruct (Single.deadlineInput st) as [|c' dl'] eqn:Edl; [congruence|].
  cbn [is_empty]. unfold Date_now, next_now in *. cbn [react world clock clock_reads].
  apply Z.leb_gt in Ht. rewrite Ht.
  unfold Math_random, set_state, later_now, next_random.
  cbn [react world clock clock_reads random random_draws alerts storage
       Single.setStartTime Single.setDeadline Single.setQuoteIndex Single.goal
       Single.deadlineInput Single.startTime Single.deadline Single.now Single.mode
       Single.quoteIndex].
  unfold Single.setQuoteIndex, Single.setDeadline, Single.setStartTime.
  cbn [Single.goal Single.deadlineInput Single.startTime Single.deadline Single.now
       Single.mode Single.quoteIndex].
  rewrite ?Edl. reflexivity.
Qed.

(** An accepted start of the single tracker ends normally with the start
    set to the clock reading that follows the comparison and the deadline
    to the parsed one, so tracking is on and the figures are those of a card
    for these two instants; the quote index is drawn within 0..9; the goal
    (untrimmed), the deadline text and the mode stay as typed. *)
Theorem handleStart_starts_tracking
    (dayjs_valueOf : jsstring -> option Z) (m : Machine Single.State) :
  validate dayjs_valueOf (Single.goal (react m)) (Single.deadlineInput (react m))
    (next_now (world m)) = None ->
  (0 <= next_random (world m))%Q -> (next_random (world m) < 1)%Q ->
  exists (d : Z) (m1 : Machine Single.State),
    Single.handleStart dayjs_valueOf m = (Ok tt, m1) /\
    dayjs_valueOf (Single.deadlineInput (react m)) = Some d /\
    Single.startTime (react m1) = Some (later_now 1 (world m)) /\
    Single.deadline (react m1) = Some d /\
    next_now (world m) < d /\
    Single.tracking (Single.startTime (react m1)) (Single.deadline (react m1)) = true /\
    0 <= Single.quoteIndex (react m1) <= 9 /\
    Single.goal (react m1) = Single.goal (react m) /\
    Single.deadlineInput (react m1) = Single.deadlineInput (react m) /\
    Single.mode (react m1) = Single.mode (react m) /\
    alerts (world m1) = alerts (world m) /\
    (forall now : Z,
       Single.derived (Single.startTime (react m1)) (Single.deadline (react m1)) now
       = App.TrackerCard (later_now 1 (world m)) d now).
Proof.
  intros Hv H0 H1.
  destruct (handleStart_accepts dayjs_valueOf m Hv) as [d [Hd [Ht He]]].
  exists d. eexists. split; [exact He|].
  cbn [react world Single.startTime Single.deadline Single.quoteIndex Single.goal
       Single.deadlineInput Single.mode alerts Single.tracking].
  split; [exact Hd|]. split; [reflexivity|]. split; [reflexivity|].
  split; [exact Ht|]. split; [reflexivity|].
  split; [now apply floor_of_scaled_draw|].
  repeat split.
Qed.

Lemma handleStart_starts_tracking_witness :
  exists (d : Z) (m1 : Machine Single.State),
    Single.handleStart Sample.dayjs_valueOf
      (mkMachine (setGoal (str "Ship it")
                    (Single.setDeadlineInput (str "2099-01-01T00:00")
                       (react (Sample.fresh_single Sample.running_clock))))
                 (Sample.browser Sample.running_clock None))
    = (Ok tt, m1) /\
    Single.deadline (react m1) = Some d /\
    0 <= Single.quoteIndex (react m1) <= 9.
Proof.
  destruct (handleStart_starts_tracking Sample.dayjs_valueOf
              (mkMachine (setGoal (str "Ship it")
                            (Single.setDeadlineInput (str "2099-01-01T00:00")
                               (react (Sample.fresh_single Sample.running_clock))))
                         (Sample.browser Sample.running_clock None))
              ltac:(vm_compute; reflexivity)
              ltac:(vm_compute; discriminate)
              ltac:(vm_compute; reflexivity))
    as [d [m1 [H1 [_ [_ [H4 [_ [_ [H7 _]]]]]]]]].
  exists d, m1. split; [exact H1|]. split; [exact H4 | exact H7].
Defined.

(** The single tracker shows a span of zero exactly when it is not
    tracking (either instant [null]); then every figure and every block of
    the countdown is zero. [handleReset] always leads there, keeping the
    goal, the mode and the quote and clearing the deadline text. *)
Theorem single_idle_figures (m : Machine Single.State) :
  (forall (s d : option Z) (now : Z),
     (totalMs (Single.derived s d now) = 0 <-> Single.tracking s d = false) /\
     (Single.tracking s d = false ->
      Single.derived s d now = mkProgress 0 0 0 (of_int 0) /\
      msToDHMS (remainingMs (Single.derived s d now)) = mkDHMS 0 0 0 0)) /\
  exists m1 : Machine Single.State,
    Single.handleReset m = (Ok tt, m1) /\
    Single.tracking (Single.startTime (react m1)) (Single.deadline (react m1)) = false /\
    Single.deadlineInput (react m1) = str "" /\
    Single.goal (react m1) = Single.goal (react m) /\
    Single.mode (react m1) = Single.mode (react m) /\
    Single.quoteIndex (react m1) = Single.quoteIndex (react m) /\
    world m1 = world m.
Proof.
  split.
  - intros s d now. destruct s as [s|], d as [d|]; cbn [Single.derived Single.tracking totalMs];
      (split; [split; intros H; try reflexivity; try discriminate; try lia
              | intros H; try discriminate; split; reflexivity]).
  - eexists. split; [reflexivity|]. repeat split.
Qed.

(** ** The ends of the scale *)

Lemma Qdiv_lt_mono (a b t : Z) :
  0 < t -> a < b -> (inject_Z a / inject_Z t * 100 < inject_Z b / inject_Z t * 100)%Q.
Proof.
  intros Ht Hab.
  apply Qmult_lt_compat_r; [reflexivity|].
  apply Qmult_lt_compat_r.
  - apply Qinv_lt_0_compat. change 0%Q with (inject_Z 0). rewrite <- Zlt_Qlt. lia.
  - now rewrite <- Zlt_Qlt.
Qed.

(** With a deadline after the start, the percentage is 0 exactly up to the
    start and 100 exactly from the deadline on; strictly between the two
    instants it is strictly between 0 and 100. *)
Theorem percent_ends (startTime deadline now : Z) :
  startTime < deadline ->
  exists q : Q,
    percent (App.TrackerCard startTime deadline now) = Fin q /\
    ((q == 0)%Q <-> now <= startTime) /\
    ((q == 100)%Q <-> deadline <= now) /\
    (startTime < now < deadline -> (0 < q)%Q /\ (q < 100)%Q).
Proof.
  intros Hsd.
  destruct (percent_is_clamped startTime deadline now) as [q [Hq [_ Heq]]].
  exists q. split; [exact Hq|].
  cbn [App.TrackerCard elapsedMs totalMs] in Heq.
  set (t := Z.max 1 (deadline - startTime)) in *.
  set (e := clamp (now - startTime) 0 t) in *.
  assert (Ht : 0 < t) by (subst t; lia).
  assert (H0 : (inject_Z 0 / inject_Z t * 100 == 0)%Q)
    by (unfold Qdiv; change (inject_Z 0) with 0%Q; now rewrite !Qmult_0_l).
  assert (H100 : (inject_Z t / inject_Z t * 100 == 100)%Q).
  { unfold Qdiv. rewrite Qmult_inv_r; [apply Qmult_1_l|].
    intros Hz. apply (proj1 (inject_Z_injective t 0)) in Hz. lia. }
  assert (Hpos : 0 < e -> (0 < q)%Q).
  { intros He. rewrite Heq.
    apply Qle_lt_trans with (inject_Z 0 / inject_Z t * 100)%Q;
      [rewrite H0; apply Qle_refl | apply Qdiv_lt_mono; lia]. }
  assert (Hlt : e < t -> (q < 100)%Q).
  { intros He. rewrite Heq.
    apply Qlt_le_trans with (inject_Z t / inject_Z t * 100)%Q;
      [apply Qdiv_lt_mono; lia | rewrite H100; apply Qle_refl]. }
  split; [|split].
  - split.
    + intros Hz. destruct (Z_le_gt_dec now startTime) as [Hle | Hgt]; [exact Hle|].
      exfalso. assert (He : 0 < e) by (subst e t; unfold clamp; lia).
      apply Hpos in He. rewrite Hz in He. discriminate He.
    + intros Hle. rewrite Heq.
      replace e with 0 by (subst e t; unfold clamp; lia). exact H0.
  - split.
    + intros Hz. destruct (Z_le_gt_dec deadline now) as [Hle | Hgt]; [exact Hle|].
      exfalso. assert (He : e < t) by (subst e t; unfold clamp; lia).
      apply Hlt in He. rewrite Hz in He. discriminate He.
    + intros Hle. rewrite Heq.
      replace e with t by (subst e t; unfold clamp; lia). exact H100.
  - intros [H1 H2]. split.
    + apply Hpos. subst e t. unfold clamp. lia.
    + apply Hlt. subst e t. unfold clamp. lia.
Qed.

Lemma percent_ends_witness :
  exists q : Q,
    percent (App.TrackerCard 0 100000 25000) = Fin q /\ (0 < q)%Q /\ (q < 100)%Q.
Proof.
  destruct (percent_ends 0 100000 25000 ltac:(lia)) as [q [Hq [_ [_ H]]]].
  exists q. split; [exact Hq|]. apply H. lia.
Defined.

(** A quote index has a quote exactly when it is one of 0, ..., 9; any
    other index, such as one read from a stored entry, has none. *)
Theorem quote_at_defined (i : Z) :
  (exists q : string, quote_at i = Some q) <-> 0 <= i <= 9.
Proof.
  split.
  - intros [q Hq]. unfold quote_at in Hq.
    destruct (i <? 0) eqn:E; [discriminate|]. apply Z.ltb_ge in E.
    assert (Hlt : (Z.to_nat i < List.length QUOTES)%nat).
    { apply nth_error_Some. rewrite Hq. discriminate. }
    cbn [List.length QUOTES] in Hlt. lia.
  - apply quote_at_in_range.
Qed.
